(** * The Qt host-interface bridge of DuckStation (duckstation-qt/qthostinterface.cpp)

    A shallow embedding of [QtHostInterface] and of the [QtHost] settings
    helpers: the methods of the source become functions of a small monad that
    threads the bridge object, records every call that leaves the file
    (emulation core, base class, display, Qt signals) and stops at a [Panic] or
    a failed [Assert].  The two threads of the program (the UI thread and the
    emulation worker) are put together by a scheduler that runs one piece of
    either thread at a time. *)

From Stdlib Require Import ZArith List Bool String Lia.
From stdpp Require Import gmap strings list.
Import ListNotations.
Open Scope string_scope.
Open Scope list_scope.

(** ** Threads *)

Inductive Thread := UIThread | WorkerThread.

Definition Thread_eqb (a b : Thread) : bool :=
  match a, b with
  | UIThread, UIThread | WorkerThread, WorkerThread => true
  | _, _ => false
  end.

(** [Qt::ConnectionType], the two values the file passes to
    [QMetaObject::invokeMethod]. *)
Inductive ConnectionType := QueuedConnection | BlockingQueuedConnection.

(** Payload types that are only passed through. *)
Definition SystemBootParameters := nat.   (* the shared_ptr, by identity *)
Definition Callback := nat.               (* a std::function<void()>, by identity *)
Definition qreal := Z.                    (* a scale factor, passed on unchanged *)

(** Messages built with a format string keep their arguments. *)
Inductive Message :=
| Msg_text (s : string)
| Msg_SettingsVersionMismatch (found expected : Z)
| Msg_FailedSubimage (index : Z)
| Msg_Dumped (what : string) (ok : bool) (filename : string).

(** ** Calls that leave the file

    Everything [qthostinterface.cpp] calls and does not define: the emulation
    core ([System::]), the base classes ([HostInterface],
    [CommonHostInterface]), the input manager, ImGui, the display object, the
    game list, the application object and the Qt signals of the bridge
    ([emit ...]). *)
Inductive Call :=
(* System:: *)
| System_IsRunning | System_IsShutdown | System_IsValid
| System_RunFrame | System_RunFrames | System_UpdatePerformanceCounters | System_Throttle
| System_CancelPendingStartup
| System_InsertMedia (path : string) | System_RemoveMedia
| System_SwitchMediaSubImage (index : Z)
| System_SingleStepCPU
| System_DumpRAM (f : string) | System_DumpVRAM (f : string) | System_DumpSPURAM (f : string)
(* HostInterface / CommonHostInterface *)
| HostInterface_ReportError (m : Message)
| HostInterface_ReportMessage (m : Message)
| HostInterface_ReportDebuggerMessage (m : Message)
| HostInterface_ResetSystem
| CommonHostInterface_Initialize
| CommonHostInterface_Shutdown
| CommonHostInterface_SetDefaultSettings
| CommonHostInterface_ApplySettings (display_osd_messages : bool)
| CommonHostInterface_PauseSystem (paused : bool)
| BootSystem (params : SystemBootParameters)
| PowerOffSystem (save_resume_state : bool)
| ShouldSaveResumeState
| ResumeSystemFromMostRecentState
| ResumeSystemFromState (filename : string) (boot_on_failure : bool)
| GetMostRecentResumeSaveStatePath
| LoadState_file (filename : string)
| LoadState_slot (global : bool) (slot : Z)
| SaveState_file (filename : string)
| SaveState_slot (global : bool) (slot : Z)
| UndoLoadState
| LoadCheatList (filename : string)
| SetCheatCodeState (index : Z) (enabled : bool)
| ApplyCheatCode (index : Z)
| ReloadPostProcessingShaders
| RequestRenderWindowScale (scale : qreal)
| StartDumpingAudio | StopDumpingAudio
| SaveScreenshot
| PollAndUpdate
| OnHostDisplayResized
| UpdateSoftwareCursor
| UpdateSpeedLimiterState
| SetUserDirectory
| GetStringSettingValue (section key default : string)
| Host_GetBaseBoolSettingValue (section key : string) (default : bool)
| AudioStream_SetOutputVolume_GetAudioOutputVolume
| Log_ErrorPrintf (text : string)
| Thread_setInitResult (result : bool)
| moveToThread_original_thread
(* InputManager, ImGui, FullscreenUI *)
| InputManager_PollSources
| ImGuiManager_RenderOSD | ImGuiManager_NewFrame
| FullscreenUI_IsInitialized
(* m_display-> *)
| Display_Render
| Display_DoneRenderContextCurrent
| Display_MakeRenderContextCurrent
| Display_IsFullscreen
(* game list *)
| GameList_SetSearchDirectoriesFromSettings
| GameList_Refresh (invalidate_cache invalidate_database : bool)
(* the callback of executeOnEmulationThread *)
| RunCallback (cb : Callback)
(* qApp *)
| QApp_processEvents
(* signals *)
| Emit_errorReported (m : Message)
| Emit_messageReported (m : Message)
| Emit_debuggerMessageReported (m : Message)
| Emit_messageConfirmed (m : Message)
| Emit_settingsResetToDefault
| Emit_gameListRefreshed
| Emit_emulationStarting
| Emit_updateDisplayRequested (fullscreen render_to_main : bool)
| Emit_cheatEnabled (index : Z) (enabled : bool)
| Emit_inputProfileLoaded.

(** The result type of a call. *)
Inductive Ty := TUnit | TBool | TString.

Definition denote (ty : Ty) : Type :=
  match ty with TUnit => unit | TBool => bool | TString => string end.

Definition default_of (ty : Ty) : denote ty :=
  match ty with TUnit => tt | TBool => false | TString => "" end.

Definition ret_ty (c : Call) : Ty :=
  match c with
  | System_IsRunning | System_IsShutdown | System_IsValid => TBool
  | System_SwitchMediaSubImage _ => TBool
  | System_DumpRAM _ | System_DumpVRAM _ | System_DumpSPURAM _ => TBool
  | CommonHostInterface_Initialize => TBool
  | BootSystem _ => TBool
  | ShouldSaveResumeState => TBool
  | GetMostRecentResumeSaveStatePath => TString
  | GetStringSettingValue _ _ _ => TString
  | Host_GetBaseBoolSettingValue _ _ _ => TBool
  | FullscreenUI_IsInitialized => TBool
  | Display_MakeRenderContextCurrent | Display_IsFullscreen => TBool
  | Emit_messageConfirmed _ => TBool
  | Emit_updateDisplayRequested _ _ => TBool
  | _ => TUnit
  end.

(** ** The operations of the bridge

    The methods of [QtHostInterface] that other objects call or that are
    posted to the worker thread by name ([QMetaObject::invokeMethod]). *)
Inductive Op :=
| Op_setDefaultSettings
| Op_applySettings (display_osd_messages : bool)
| Op_refreshGameList (invalidate_cache invalidate_database : bool)
| Op_bootSystem (params : SystemBootParameters)
| Op_resumeSystemFromState (filename : string) (boot_on_failure : bool)
| Op_resumeSystemFromMostRecentState
| Op_redrawDisplayWindow
| Op_toggleFullscreen
| Op_applyInputProfile (profile_path : string)
| Op_saveInputProfile (profile_name : string)
| Op_powerOffSystem
| Op_powerOffSystemWithoutSaving
| Op_synchronousPowerOffSystem
| Op_resetSystem
| Op_pauseSystem (paused wait_until_paused : bool)
| Op_changeDisc (new_disc_filename : string)
| Op_changeDiscFromPlaylist (index : Z)
| Op_loadCheatList (filename : string)
| Op_setCheatEnabled (index : Z) (enabled : bool)
| Op_applyCheat (index : Z)
| Op_reloadPostProcessingShaders
| Op_requestRenderWindowScale (scale : qreal)
| Op_executeOnEmulationThread (callback : Callback) (wait : bool)
| Op_RunLater (func : Callback)
| Op_loadState_file (filename : string)
| Op_loadState_slot (global : bool) (slot : Z)
| Op_saveState_file (filename : string) (block_until_done : bool)
| Op_saveState_slot (global : bool) (slot : Z) (block_until_done : bool)
| Op_undoLoadState
| Op_setAudioOutputVolume (volume fast_forward_volume : Z)
| Op_setAudioOutputMuted (muted : bool)
| Op_startDumpingAudio
| Op_stopDumpingAudio
| Op_singleStepCPU
| Op_dumpRAM (filename : string)
| Op_dumpVRAM (filename : string)
| Op_dumpSPURAM (filename : string)
| Op_saveScreenshot
| Op_stopThread
| Op_doStopThread
| Op_reloadGameSettings
| Op_reloadInputBindings.

(** What a run leaves behind, in order. *)
Inductive Event :=
| EvCall (c : Call)                             (* a call that leaves the file *)
| EvInvoke (op : Op) (conn : ConnectionType)    (* QMetaObject::invokeMethod(this, op, conn, ...) *)
| EvTimerStart (interval : nat)                 (* QTimer::start(interval) of the save timer *)
| EvSettingsSave (saved : bool)                 (* s_base_settings_interface->Save() and its result *)
| EvDelivered (op : Op) (conn : ConnectionType). (* the worker's event loop has run a posted call *)

(** ** The settings layer

    Modelled from the spec: [INISettingsInterface] (frontend-common) is not
    under src/.  The spec gives a key/value settings file with a version
    stamp; a store maps (section, key) to a value, [Load] reads the file,
    [Save] writes it, [Clear] empties the store. *)
Inductive Value :=
| VBool (b : bool)
| VInt (z : Z)
| VFloat (bits : Z)
| VString (s : string)
| VStringList (l : list string).

Abbreviation Store := (gmap (string * string) Value).

(** The single-shot timer behind [s_settings_save_timer]. *)
Record QTimer := { single_shot : bool; deadline : nat }.

(** What the UI thread is doing after a call into the bridge returned to the
    scheduler: running its own event loop, waiting in [waitForInit] for the
    worker to come up, suspended inside a [Qt::BlockingQueuedConnection]
    call, inside the polling loop of [executeOnEmulationThread], or suspended
    in [QThread::wait]. *)
Inductive UIWait := UIRunning | UIWaitInit | UIWaitSlot | UIPollSyncEvent | UIWaitThread.

Section Bridge.

(** The state of the collaborators, as far as it is not named below. *)
Context {C : Type}.

(** State that code outside the file owns or reaches: members of the base
    classes, [g_settings], and the exit flag of the worker's event loop, which
    [OnSystemCreated] and [OnSystemPaused] set through [wakeThread] when the
    core calls them back. *)
Record Env := {
  m_display : bool;                  (* m_display != nullptr *)
  m_display_all_frames : bool;
  m_frame_step_request : bool;
  m_throttler_enabled : bool;
  m_audio_stream : bool;             (* m_audio_stream != nullptr *)
  audio_output_volume : Z;           (* g_settings.audio_output_volume *)
  audio_fast_forward_volume : Z;
  audio_output_muted : bool;
  event_loop_exit : bool;            (* m_worker_thread_event_loop: quit() was called *)
  core : C
}.

Definition set_m_display (v : bool) (e : Env) : Env :=
  {| m_display := v; m_display_all_frames := m_display_all_frames e;
     m_frame_step_request := m_frame_step_request e;
     m_throttler_enabled := m_throttler_enabled e; m_audio_stream := m_audio_stream e;
     audio_output_volume := audio_output_volume e;
     audio_fast_forward_volume := audio_fast_forward_volume e;
     audio_output_muted := audio_output_muted e; event_loop_exit := event_loop_exit e;
     core := core e |}.

Definition set_m_frame_step_request (v : bool) (e : Env) : Env :=
  {| m_display := m_display e; m_display_all_frames := m_display_all_frames e;
     m_frame_step_request := v; m_throttler_enabled := m_throttler_enabled e;
     m_audio_stream := m_audio_stream e; audio_output_volume := audio_output_volume e;
     audio_fast_forward_volume := audio_fast_forward_volume e;
     audio_output_muted := audio_output_muted e; event_loop_exit := event_loop_exit e;
     core := core e |}.

Definition set_audio_output_volume (v : Z) (e : Env) : Env :=
  {| m_display := m_display e; m_display_all_frames := m_display_all_frames e;
     m_frame_step_request := m_frame_step_request e;
     m_throttler_enabled := m_throttler_enabled e; m_audio_stream := m_audio_stream e;
     audio_output_volume := v; audio_fast_forward_volume := audio_fast_forward_volume e;
     audio_output_muted := audio_output_muted e; event_loop_exit := event_loop_exit e;
     core := core e |}.

Definition set_audio_fast_forward_volume (v : Z) (e : Env) : Env :=
  {| m_display := m_display e; m_display_all_frames := m_display_all_frames e;
     m_frame_step_request := m_frame_step_request e;
     m_throttler_enabled := m_throttler_enabled e; m_audio_stream := m_audio_stream e;
     audio_output_volume := audio_output_volume e; audio_fast_forward_volume := v;
     audio_output_muted := audio_output_muted e; event_loop_exit := event_loop_exit e;
     core := core e |}.

Definition set_audio_output_muted (v : bool) (e : Env) : Env :=
  {| m_display := m_display e; m_display_all_frames := m_display_all_frames e;
     m_frame_step_request := m_frame_step_request e;
     m_throttler_enabled := m_throttler_enabled e; m_audio_stream := m_audio_stream e;
     audio_output_volume := audio_output_volume e;
     audio_fast_forward_volume := audio_fast_forward_volume e; audio_output_muted := v;
     event_loop_exit := event_loop_exit e; core := core e |}.

Definition set_event_loop_exit (v : bool) (e : Env) : Env :=
  {| m_display := m_display e; m_display_all_frames := m_display_all_frames e;
     m_frame_step_request := m_frame_step_request e;
     m_throttler_enabled := m_throttler_enabled e; m_audio_stream := m_audio_stream e;
     audio_output_volume := audio_output_volume e;
     audio_fast_forward_volume := audio_fast_forward_volume e;
     audio_output_muted := audio_output_muted e; event_loop_exit := v; core := core e |}.

(** The bridge object with the statics of the file and the Qt run time state
    the file relies on. *)
Record Host := {
  m_is_rendering_to_main : bool;
  m_is_fullscreen : bool;
  m_is_exclusive_fullscreen : bool;
  m_lost_exclusive_fullscreen : bool;
  m_shutdown_flag : bool;
  m_worker_thread_sync_execute_done : bool;            (* the Common::Event is signalled *)
  m_background_controller_polling_timer : option bool; (* Some active, None: nullptr *)
  s_base_settings_interface : Store;
  s_settings_save_timer : option QTimer;
  settings_file : option Store;                        (* the INI file, None: cannot be loaded *)
  settings_file_writable : bool;
  posted : list (Op * ConnectionType);                 (* calls posted to the worker, oldest first *)
  ui_wait : UIWait;
  now : nat;                                           (* milliseconds *)
  env : Env
}.

Definition set_m_is_rendering_to_main (v : bool) (h : Host) : Host :=
  {| m_is_rendering_to_main := v; m_is_fullscreen := m_is_fullscreen h;
     m_is_exclusive_fullscreen := m_is_exclusive_fullscreen h;
     m_lost_exclusive_fullscreen := m_lost_exclusive_fullscreen h;
     m_shutdown_flag := m_shutdown_flag h;
     m_worker_thread_sync_execute_done := m_worker_thread_sync_execute_done h;
     m_background_controller_polling_timer := m_background_controller_polling_timer h;
     s_base_settings_interface := s_base_settings_interface h;
     s_settings_save_timer := s_settings_save_timer h; settings_file := settings_file h;
     settings_file_writable := settings_file_writable h; posted := posted h;
     ui_wait := ui_wait h; now := now h; env := env h |}.

Definition set_m_is_fullscreen (v : bool) (h : Host) : Host :=
  {| m_is_rendering_to_main := m_is_rendering_to_main h; m_is_fullscreen := v;
     m_is_exclusive_fullscreen := m_is_exclusive_fullscreen h;
     m_lost_exclusive_fullscreen := m_lost_exclusive_fullscreen h;
     m_shutdown_flag := m_shutdown_flag h;
     m_worker_thread_sync_execute_done := m_worker_thread_sync_execute_done h;
     m_background_controller_polling_timer := m_background_controller_polling_timer h;
     s_base_settings_interface := s_base_settings_interface h;
     s_settings_save_timer := s_settings_save_timer h; settings_file := settings_file h;
     settings_file_writable := settings_file_writable h; posted := posted h;
     ui_wait := ui_wait h; now := now h; env := env h |}.

Definition set_m_is_exclusive_fullscreen (v : bool) (h : Host) : Host :=
  {| m_is_rendering_to_main := m_is_rendering_to_main h; m_is_fullscreen := m_is_fullscreen h;
     m_is_exclusive_fullscreen := v;
     m_lost_exclusive_fullscreen := m_lost_exclusive_fullscreen h;
     m_shutdown_flag := m_shutdown_flag h;
     m_worker_thread_sync_execute_done := m_worker_thread_sync_execute_done h;
     m_background_controller_polling_timer := m_background_controller_polling_timer h;
     s_base_settings_interface := s_base_settings_interface h;
     s_settings_save_timer := s_settings_save_timer h; settings_file := settings_file h;
     settings_file_writable := settings_file_writable h; posted := posted h;
     ui_wait := ui_wait h; now := now h; env := env h |}.

Definition set_m_lost_exclusive_fullscreen (v : bool) (h : Host) : Host :=
  {| m_is_rendering_to_main := m_is_rendering_to_main h; m_is_fullscreen := m_is_fullscreen h;
     m_is_exclusive_fullscreen := m_is_exclusive_fullscreen h; m_lost_exclusive_fullscreen := v;
     m_shutdown_flag := m_shutdown_flag h;
     m_worker_thread_sync_execute_done := m_worker_thread_sync_execute_done h;
     m_background_controller_polling_timer := m_background_controller_polling_timer h;
     s_base_settings_interface := s_base_settings_interface h;
     s_settings_save_timer := s_settings_save_timer h; settings_file := settings_file h;
     settings_file_writable := settings_file_writable h; posted := posted h;
     ui_wait := ui_wait h; now := now h; env := env h |}.

Definition set_m_shutdown_flag (v : bool) (h : Host) : Host :=
  {| m_is_rendering_to_main := m_is_rendering_to_main h; m_is_fullscreen := m_is_fullscreen h;
     m_is_exclusive_fullscreen := m_is_exclusive_fullscreen h;
     m_lost_exclusive_fullscreen := m_lost_exclusive_fullscreen h; m_shutdown_flag := v;
     m_worker_thread_sync_execute_done := m_worker_thread_sync_execute_done h;
     m_background_controller_polling_timer := m_background_controller_polling_timer h;
     s_base_settings_interface := s_base_settings_interface h;
     s_settings_save_timer := s_settings_save_timer h; settings_file := settings_file h;
     settings_file_writable := settings_file_writable h; posted := posted h;
     ui_wait := ui_wait h; now := now h; env := env h |}.

Definition set_m_worker_thread_sync_execute_done (v : bool) (h : Host) : Host :=
  {| m_is_rendering_to_main := m_is_rendering_to_main h; m_is_fullscreen := m_is_fullscreen h;
     m_is_exclusive_fullscreen := m_is_exclusive_fullscreen h;
     m_lost_exclusive_fullscreen := m_lost_exclusive_fullscreen h;
     m_shutdown_flag := m_shutdown_flag h; m_worker_thread_sync_execute_done := v;
     m_background_controller_polling_timer := m_background_controller_polling_timer h;
     s_base_settings_interface := s_base_settings_interface h;
     s_settings_save_timer := s_settings_save_timer h; settings_file := settings_file h;
     settings_file_writable := settings_file_writable h; posted := posted h;
     ui_wait := ui_wait h; now := now h; env := env h |}.

Definition set_m_background_controller_polling_timer (v : option bool) (h : Host) : Host :=
  {| m_is_rendering_to_main := m_is_rendering_to_main h; m_is_fullscreen := m_is_fullscreen h;
     m_is_exclusive_fullscreen := m_is_exclusive_fullscreen h;
     m_lost_exclusive_fullscreen := m_lost_exclusive_fullscreen h;
     m_shutdown_flag := m_shutdown_flag h;
     m_worker_thread_sync_execute_done := m_worker_thread_sync_execute_done h;
     m_background_controller_polling_timer := v;
     s_base_settings_interface := s_base_settings_interface h;
     s_settings_save_timer := s_settings_save_timer h; settings_file := settings_file h;
     settings_file_writable := settings_file_writable h; posted := posted h;
     ui_wait := ui_wait h; now := now h; env := env h |}.

Definition set_s_base_settings_interface (v : Store) (h : Host) : Host :=
  {| m_is_rendering_to_main := m_is_rendering_to_main h; m_is_fullscreen := m_is_fullscreen h;
     m_is_exclusive_fullscreen := m_is_exclusive_fullscreen h;
     m_lost_exclusive_fullscreen := m_lost_exclusive_fullscreen h;
     m_shutdown_flag := m_shutdown_flag h;
     m_worker_thread_sync_execute_done := m_worker_thread_sync_execute_done h;
     m_background_controller_polling_timer := m_background_controller_polling_timer h;
     s_base_settings_interface := v; s_settings_save_timer := s_settings_save_timer h;
     settings_file := settings_file h; settings_file_writable := settings_file_writable h;
     posted := posted h; ui_wait := ui_wait h; now := now h; env := env h |}.

Definition set_s_settings_save_timer (v : option QTimer) (h : Host) : Host :=
  {| m_is_rendering_to_main := m_is_rendering_to_main h; m_is_fullscreen := m_is_fullscreen h;
     m_is_exclusive_fullscreen := m_is_exclusive_fullscreen h;
     m_lost_exclusive_fullscreen := m_lost_exclusive_fullscreen h;
     m_shutdown_flag := m_shutdown_flag h;
     m_worker_thread_sync_execute_done := m_worker_thread_sync_execute_done h;
     m_background_controller_polling_timer := m_background_controller_polling_timer h;
     s_base_settings_interface := s_base_settings_interface h; s_settings_save_timer := v;
     settings_file := settings_file h; settings_file_writable := settings_file_writable h;
     posted := posted h; ui_wait := ui_wait h; now := now h; env := env h |}.

Definition set_settings_file (v : option Store) (h : Host) : Host :=
  {| m_is_rendering_to_main := m_is_rendering_to_main h; m_is_fullscreen := m_is_fullscreen h;
     m_is_exclusive_fullscreen := m_is_exclusive_fullscreen h;
     m_lost_exclusive_fullscreen := m_lost_exclusive_fullscreen h;
     m_shutdown_flag := m_shutdown_flag h;
     m_worker_thread_sync_execute_done := m_worker_thread_sync_execute_done h;
     m_background_controller_polling_timer := m_background_controller_polling_timer h;
     s_base_settings_interface := s_base_settings_interface h;
     s_settings_save_timer := s_settings_save_timer h; settings_file := v;
     settings_file_writable := settings_file_writable h; posted := posted h;
     ui_wait := ui_wait h; now := now h; env := env h |}.

Definition set_posted (v : list (Op * ConnectionType)) (h : Host) : Host :=
  {| m_is_rendering_to_main := m_is_rendering_to_main h; m_is_fullscreen := m_is_fullscreen h;
     m_is_exclusive_fullscreen := m_is_exclusive_fullscreen h;
     m_lost_exclusive_fullscreen := m_lost_exclusive_fullscreen h;
     m_shutdown_flag := m_shutdown_flag h;
     m_worker_thread_sync_execute_done := m_worker_thread_sync_execute_done h;
     m_background_controller_polling_timer := m_background_controller_polling_timer h;
     s_base_settings_interface := s_base_settings_interface h;
     s_settings_save_timer := s_settings_save_timer h; settings_file := settings_file h;
     settings_file_writable := settings_file_writable h; posted := v; ui_wait := ui_wait h;
     now := now h; env := env h |}.

Definition set_ui_wait (v : UIWait) (h : Host) : Host :=
  {| m_is_rendering_to_main := m_is_rendering_to_main h; m_is_fullscreen := m_is_fullscreen h;
     m_is_exclusive_fullscreen := m_is_exclusive_fullscreen h;
     m_lost_exclusive_fullscreen := m_lost_exclusive_fullscreen h;
     m_shutdown_flag := m_shutdown_flag h;
     m_worker_thread_sync_execute_done := m_worker_thread_sync_execute_done h;
     m_background_controller_polling_timer := m_background_controller_polling_timer h;
     s_base_settings_interface := s_base_settings_interface h;
     s_settings_save_timer := s_settings_save_timer h; settings_file := settings_file h;
     settings_file_writable := settings_file_writable h; posted := posted h; ui_wait := v;
     now := now h; env := env h |}.

Definition set_now (v : nat) (h : Host) : Host :=
  {| m_is_rendering_to_main := m_is_rendering_to_main h; m_is_fullscreen := m_is_fullscreen h;
     m_is_exclusive_fullscreen := m_is_exclusive_fullscreen h;
     m_lost_exclusive_fullscreen := m_lost_exclusive_fullscreen h;
     m_shutdown_flag := m_shutdown_flag h;
     m_worker_thread_sync_execute_done := m_worker_thread_sync_execute_done h;
     m_background_controller_polling_timer := m_background_controller_polling_timer h;
     s_base_settings_interface := s_base_settings_interface h;
     s_settings_save_timer := s_settings_save_timer h; settings_file := settings_file h;
     settings_file_writable := settings_file_writable h; posted := posted h;
     ui_wait := ui_wait h; now := v; env := env h |}.

Definition set_env (v : Env) (h : Host) : Host :=
  {| m_is_rendering_to_main := m_is_rendering_to_main h; m_is_fullscreen := m_is_fullscreen h;
     m_is_exclusive_fullscreen := m_is_exclusive_fullscreen h;
     m_lost_exclusive_fullscreen := m_lost_exclusive_fullscreen h;
     m_shutdown_flag := m_shutdown_flag h;
     m_worker_thread_sync_execute_done := m_worker_thread_sync_execute_done h;
     m_background_controller_polling_timer := m_background_controller_polling_timer h;
     s_base_settings_interface := s_base_settings_interface h;
     s_settings_save_timer := s_settings_save_timer h; settings_file := settings_file h;
     settings_file_writable := settings_file_writable h; posted := posted h;
     ui_wait := ui_wait h; now := now h; env := v |}.

(** The collaborators: what a call does to their state and what it returns. *)
Variable ext : forall c : Call, Env -> Env * denote (ret_ty c).

(** Constants and helpers of the repository that are not under src/. *)
Variable SETTINGS_VERSION : Z.
Variable CommonHostInterface_SetDefaultSettings_si : Store -> Store.
(** Whether the file is compiled with [_WIN32]. *)
Variable WIN32 : bool.

(** The collaborators' state after a call, and after a sequence of calls. *)
Definition ext_env (c : Call) (e : Env) : Env := fst (ext c e).

Fixpoint ext_seq (cs : list Call) (e : Env) : Env :=
  match cs with
  | [] => e
  | c :: rest => ext_seq rest (ext_env c e)
  end.

(** ** The monad: current thread, bridge state, trace, and [Panic] *)

Inductive Res (A : Type) :=
| Ok (a : A) (h : Host) (tr : list Event)
| Panic (msg : string) (h : Host) (tr : list Event).
Arguments Ok {A} a h tr.
Arguments Panic {A} msg h tr.

Definition M (A : Type) : Type := Thread -> Host -> Res A.

Definition ret {A} (a : A) : M A := fun _ h => Ok a h [].

Definition bind {A B} (m : M A) (f : A -> M B) : M B :=
  fun t h =>
    match m t h with
    | Ok a h1 tr1 =>
        match f a t h1 with
        | Ok b h2 tr2 => Ok b h2 (tr1 ++ tr2)
        | Panic msg h2 tr2 => Panic msg h2 (tr1 ++ tr2)
        end
    | Panic msg h1 tr1 => Panic msg h1 tr1
    end.

Notation "x <- m ;; k" := (bind m (fun x => k))
  (at level 100, m at next level, k at level 200, right associativity).
Notation "m ;; k" := (bind m (fun _ => k))
  (at level 100, k at level 200, right associativity).

Definition state_of {A} (r : Res A) : Host :=
  match r with Ok _ h _ | Panic _ h _ => h end.

Definition trace_of {A} (r : Res A) : list Event :=
  match r with Ok _ _ tr | Panic _ _ tr => tr end.

Definition returns {A} (r : Res A) : bool :=
  match r with Ok _ _ _ => true | Panic _ _ _ => false end.

Definition gets {A} (f : Host -> A) : M A := fun _ h => Ok (f h) h [].
Definition modify (f : Host -> Host) : M unit := fun _ h => Ok tt (f h) [].
Definition modify_env (f : Env -> Env) : M unit := modify (fun h => set_env (f (env h)) h).
Definition note (e : Event) : M unit := fun _ h => Ok tt h [e].
Definition panic {A} (msg : string) : M A := fun _ h => Panic msg h [].

(** A call that leaves the file: the collaborators answer and move on. *)
Definition call (c : Call) : M (denote (ret_ty c)) :=
  fun _ h => let (e', r) := ext c (env h) in Ok r (set_env e' h) [EvCall c].

(** [Assert] and [AssertMsg] of common/assert.h stop the process when the
    condition is false (the spec: contract violations are fatal). *)
Definition Assert (cond : bool) (msg : string) : M unit :=
  if cond then ret tt else panic msg.

(** Modelled from the spec: [isOnWorkerThread] is declared in
    qthostinterface.h, which is not under src/; the spec's dispatch pattern
    reads "current_thread != worker_thread". *)
Definition isOnWorkerThread : M bool :=
  fun t h => Ok (Thread_eqb t WorkerThread) h [].

(** [QMetaObject::invokeMethod(this, op, conn, args)]: the call is posted to
    the thread the bridge lives on; with [Qt::BlockingQueuedConnection] the
    caller is suspended until the worker has run it. *)
Definition invokeMethod (op : Op) (conn : ConnectionType) : M unit :=
  fun _ h =>
    let h1 := set_posted (posted h ++ [(op, conn)]) h in
    let h2 := match conn with
              | QueuedConnection => h1
              | BlockingQueuedConnection => set_ui_wait UIWaitSlot h1
              end in
    Ok tt h2 [EvInvoke op conn].

(** ** Display *)

Definition renderDisplay : M unit :=
  call ImGuiManager_RenderOSD ;;
  call Display_Render ;;
  call ImGuiManager_NewFrame.

Definition redrawDisplayWindow : M unit :=
  on_worker <- isOnWorkerThread ;;
  if negb on_worker then invokeMethod Op_redrawDisplayWindow QueuedConnection
  else
    has_display <- gets (fun h => m_display (env h)) ;;
    if negb has_display then ret tt
    else
      shut <- call System_IsShutdown ;;
      if shut then ret tt else renderDisplay.

Definition updateDisplayState : M unit :=
  has_display <- gets (fun h => m_display (env h)) ;;
  if negb has_display then ret tt
  else
    call Display_DoneRenderContextCurrent ;;
    fs <- gets m_is_fullscreen ;;
    rtm <- gets m_is_rendering_to_main ;;
    display_widget <- call (Emit_updateDisplayRequested fs (rtm && negb fs)) ;;
    made_current <- (if display_widget then call Display_MakeRenderContextCurrent else ret false) ;;
    (if negb display_widget || negb made_current
     then panic "Failed to make device context current after updating"
     else ret tt) ;;
    exclusive <- call Display_IsFullscreen ;;
    modify (set_m_is_exclusive_fullscreen exclusive) ;;
    call OnHostDisplayResized ;;
    shut <- call System_IsShutdown ;;
    (if negb shut
     then call UpdateSoftwareCursor ;;
          fsui <- call FullscreenUI_IsInitialized ;;
          if negb fsui then redrawDisplayWindow else ret tt
     else ret tt) ;;
    call UpdateSpeedLimiterState.

Definition IsFullscreen : M bool := gets m_is_fullscreen.

Definition SetFullscreen (enabled : bool) : M bool :=
  fs <- gets m_is_fullscreen ;;
  if Bool.eqb fs enabled then ret true
  else
    modify (set_m_is_fullscreen enabled) ;;
    updateDisplayState ;;
    ret true.

Definition toggleFullscreen : M unit :=
  on_worker <- isOnWorkerThread ;;
  if negb on_worker then invokeMethod Op_toggleFullscreen QueuedConnection
  else
    fs <- gets m_is_fullscreen ;;
    SetFullscreen (negb fs) ;;
    ret tt.

(** ** Notifications *)

Definition ReportError (message : Message) : M unit :=
  call (HostInterface_ReportError message) ;;
  was_fullscreen <- gets m_is_fullscreen ;;
  (if was_fullscreen then SetFullscreen false ;; ret tt else ret tt) ;;
  call (Emit_errorReported message) ;;
  (if was_fullscreen then SetFullscreen true ;; ret tt else ret tt).

Definition ReportMessage (message : Message) : M unit :=
  call (HostInterface_ReportMessage message) ;;
  call (Emit_messageReported message).

Definition ReportDebuggerMessage (message : Message) : M unit :=
  call (HostInterface_ReportDebuggerMessage message) ;;
  call (Emit_debuggerMessageReported message).


(** ** Settings

    The operations of the settings layer on a store (see [Value]). *)

Definition INI_GetIntValue (si : Store) (section key : string) (default : Z) : Z :=
  match si !! (section, key) with Some (VInt z) => z | _ => default end.

Definition INI_GetStringList (si : Store) (section key : string) : list string :=
  match si !! (section, key) with Some (VStringList l) => l | _ => [] end.

Definition INI_SetBoolValue (si : Store) (section key : string) (value : bool) : Store :=
  <[(section, key) := VBool value]> si.

Definition INI_SetIntValue (si : Store) (section key : string) (value : Z) : Store :=
  <[(section, key) := VInt value]> si.

Definition INI_SetFloatValue (si : Store) (section key : string) (value : Z) : Store :=
  <[(section, key) := VFloat value]> si.

Definition INI_SetStringValue (si : Store) (section key value : string) : Store :=
  <[(section, key) := VString value]> si.

Definition INI_SetStringList (si : Store) (section key : string) (values : list string) : Store :=
  <[(section, key) := VStringList values]> si.

Definition string_in (value : string) (l : list string) : bool :=
  existsb (String.eqb value) l.

Definition INI_AddToStringList (si : Store) (section key value : string) : Store * bool :=
  let l := INI_GetStringList si section key in
  if string_in value l then (si, false)
  else (<[(section, key) := VStringList (l ++ [value])]> si, true).

Definition INI_RemoveFromStringList (si : Store) (section key value : string) : Store * bool :=
  let l := INI_GetStringList si section key in
  if string_in value l
  then (<[(section, key) := VStringList (List.filter (fun x => negb (String.eqb value x)) l)]> si, true)
  else (si, false).

Definition INI_DeleteValue (si : Store) (section key : string) : Store :=
  delete (section, key) si.

Definition INI_Clear (si : Store) : Store := ∅.

(** [s_base_settings_interface->Load()]: false when the file cannot be read. *)
Definition INI_Load : M bool :=
  file <- gets settings_file ;;
  match file with
  | Some content => modify (set_s_base_settings_interface content) ;; ret true
  | None => ret false
  end.

(** [s_base_settings_interface->Save()]: false when the file cannot be written. *)
Definition INI_Save : M bool :=
  writable <- gets settings_file_writable ;;
  (if writable
   then modify (fun h => set_settings_file (Some (s_base_settings_interface h)) h)
   else ret tt) ;;
  note (EvSettingsSave writable) ;;
  ret writable.

Definition update_settings (f : Store -> Store) : M unit :=
  modify (fun h => set_s_base_settings_interface (f (s_base_settings_interface h)) h).

Definition SETTINGS_SAVE_DELAY : nat := 1000.

(** [QtHost::SaveSettings], the slot of the save timer. *)
Definition SaveSettings : M unit :=
  on_worker <- isOnWorkerThread ;;
  Assert (negb on_worker) "Saving should happen on the UI thread." ;;
  saved <- INI_Save ;;
  (if negb saved then call (Log_ErrorPrintf "Failed to save settings.") else ret tt) ;;
  (* s_settings_save_timer->deleteLater(); s_settings_save_timer.release(); *)
  timer <- gets s_settings_save_timer ;;
  match timer with
  | None => panic "null pointer: s_settings_save_timer"
  | Some _ => modify (set_s_settings_save_timer None)
  end.

Definition QueueSettingsSave : M unit :=
  timer <- gets s_settings_save_timer ;;
  match timer with
  | Some _ => ret tt
  | None =>
      t0 <- gets now ;;
      modify (set_s_settings_save_timer
                (Some {| single_shot := true; deadline := t0 + SETTINGS_SAVE_DELAY |})) ;;
      note (EvTimerStart SETTINGS_SAVE_DELAY)
  end.

(** The setters of [namespace QtHost]; each holds the settings lock, which
    the scheduler below grants by running a setter in one piece. *)
Definition SetBaseBoolSettingValue (section key : string) (value : bool) : M unit :=
  update_settings (fun si => INI_SetBoolValue si section key value) ;;
  QueueSettingsSave.

Definition SetBaseIntSettingValue (section key : string) (value : Z) : M unit :=
  update_settings (fun si => INI_SetIntValue si section key value) ;;
  QueueSettingsSave.

Definition SetBaseFloatSettingValue (section key : string) (value : Z) : M unit :=
  update_settings (fun si => INI_SetFloatValue si section key value) ;;
  QueueSettingsSave.

Definition SetBaseStringSettingValue (section key value : string) : M unit :=
  update_settings (fun si => INI_SetStringValue si section key value) ;;
  QueueSettingsSave.

Definition SetBaseStringListSettingValue (section key : string) (values : list string) : M unit :=
  update_settings (fun si => INI_SetStringList si section key values) ;;
  QueueSettingsSave.

Definition AddBaseValueToStringList (section key value : string) : M bool :=
  si <- gets s_base_settings_interface ;;
  let (si', added) := INI_AddToStringList si section key value in
  if negb added then ret false
  else modify (set_s_base_settings_interface si') ;; QueueSettingsSave ;; ret true.

Definition RemoveBaseValueFromStringList (section key value : string) : M bool :=
  si <- gets s_base_settings_interface ;;
  let (si', removed) := INI_RemoveFromStringList si section key value in
  if negb removed then ret false
  else modify (set_s_base_settings_interface si') ;; QueueSettingsSave ;; ret true.

Definition RemoveBaseSettingValue (section key : string) : M unit :=
  update_settings (fun si => INI_DeleteValue si section key) ;;
  QueueSettingsSave.

(** The same setters as members of the bridge. *)
Definition queueSettingsSave : M unit := QueueSettingsSave.

Definition SetBoolSettingValue (section key : string) (value : bool) : M unit :=
  SetBaseBoolSettingValue section key value.

Definition SetIntSettingValue (section key : string) (value : Z) : M unit :=
  SetBaseIntSettingValue section key value.

Definition SetFloatSettingValue (section key : string) (value : Z) : M unit :=
  SetBaseFloatSettingValue section key value.

Definition SetStringSettingValue (section key value : string) : M unit :=
  SetBaseStringSettingValue section key value.

Definition SetStringListSettingValue (section key : string) (values : list string) : M unit :=
  SetBaseStringListSettingValue section key values.

Definition AddValueToStringList (section key value : string) : M bool :=
  AddBaseValueToStringList section key value.

Definition RemoveValueFromStringList (section key value : string) : M bool :=
  RemoveBaseValueFromStringList section key value.

Definition RemoveSettingValue (section key : string) : M unit :=
  RemoveBaseSettingValue section key.

(** [QtHostInterface::SetDefaultSettings(SettingsInterface& si)]. *)
Definition SetDefaultSettings_si (si : Store) : Store :=
  let si := CommonHostInterface_SetDefaultSettings_si si in
  let si := INI_SetStringValue si "Hotkeys" "PowerOff" "Keyboard/Escape" in
  let si := INI_SetStringValue si "Hotkeys" "LoadSelectedSaveState" "Keyboard/F1" in
  let si := INI_SetStringValue si "Hotkeys" "SaveSelectedSaveState" "Keyboard/F2" in
  let si := INI_SetStringValue si "Hotkeys" "SelectPreviousSaveStateSlot" "Keyboard/F3" in
  let si := INI_SetStringValue si "Hotkeys" "SelectNextSaveStateSlot" "Keyboard/F4" in
  INI_SetBoolValue si "Main" "RenderToMainWindow" true.

(** [ReportFormattedError] and [ReportFormattedMessage] of the base class
    format their arguments and call the virtual [ReportError] and
    [ReportMessage]. *)
Definition ReportFormattedError (message : Message) : M unit := ReportError message.
Definition ReportFormattedMessage (message : Message) : M unit := ReportMessage message.

Definition checkRenderToMainState : M unit :=
  shut <- call System_IsShutdown ;;
  if negb shut
  then
    render_to_main <- call (Host_GetBaseBoolSettingValue "Main" "RenderToMainWindow" true) ;;
    has_display <- gets (fun h => m_display (env h)) ;;
    fs <- gets m_is_fullscreen ;;
    rtm <- gets m_is_rendering_to_main ;;
    if has_display && negb fs && negb (Bool.eqb render_to_main rtm)
    then modify (set_m_is_rendering_to_main render_to_main) ;; updateDisplayState
    else
      fsui <- call FullscreenUI_IsInitialized ;;
      if negb fsui then renderDisplay else ret tt
  else ret tt.

Definition SetDefaultSettings : M unit :=
  call CommonHostInterface_SetDefaultSettings ;;
  checkRenderToMainState ;;
  queueSettingsSave ;;
  call Emit_settingsResetToDefault.

Definition ApplySettings (display_osd_messages : bool) : M unit :=
  call (CommonHostInterface_ApplySettings display_osd_messages) ;;
  checkRenderToMainState.

(** ** The background controller poll timer *)

Definition createBackgroundControllerPollTimer : M unit :=
  modify (set_m_background_controller_polling_timer (Some false)).

Definition destroyBackgroundControllerPollTimer : M unit :=
  modify (set_m_background_controller_polling_timer None).

Definition startBackgroundControllerPollTimer : M unit :=
  timer <- gets m_background_controller_polling_timer ;;
  match timer with
  | None => panic "null pointer: m_background_controller_polling_timer"
  | Some true => ret tt
  | Some false => modify (set_m_background_controller_polling_timer (Some true))
  end.

Definition stopBackgroundControllerPollTimer : M unit :=
  timer <- gets m_background_controller_polling_timer ;;
  match timer with
  | None => panic "null pointer: m_background_controller_polling_timer"
  | Some false => ret tt
  | Some true => modify (set_m_background_controller_polling_timer (Some false))
  end.

Definition doBackgroundControllerPoll : M unit := call PollAndUpdate.

(** ** Initialisation on the worker thread *)

(** With [_WIN32] the languages ja and zh-cn select a font path and a glyph
    range, and both end in [Panic("Fixme")]. *)
Definition setImGuiFont : M unit :=
  language <- call (GetStringSettingValue "Main" "Language" "") ;;
  if WIN32 && (String.eqb language "ja" || String.eqb language "zh-cn")
  then panic "Fixme"
  else ret tt.

Definition initializeOnThread : M bool :=
  call SetUserDirectory ;;
  modify (set_s_base_settings_interface ∅) ;;
  loaded <- INI_Load ;;
  (if negb loaded then update_settings SetDefaultSettings_si else ret tt) ;;
  settings_version <-
    gets (fun h => INI_GetIntValue (s_base_settings_interface h) "Main" "SettingsVersion" (-1)) ;;
  (if negb (settings_version =? SETTINGS_VERSION)%Z
   then
     ReportFormattedError (Msg_SettingsVersionMismatch settings_version SETTINGS_VERSION) ;;
     update_settings INI_Clear ;;
     update_settings (fun si => INI_SetIntValue si "Main" "SettingsVersion" SETTINGS_VERSION) ;;
     update_settings SetDefaultSettings_si ;;
     INI_Save ;;
     ret tt
   else ret tt) ;;
  initialized <- call CommonHostInterface_Initialize ;;
  if negb initialized then ret false
  else
    setImGuiFont ;;
    createBackgroundControllerPollTimer ;;
    startBackgroundControllerPollTimer ;;
    ret true.

Definition shutdownOnThread : M unit :=
  destroyBackgroundControllerPollTimer ;;
  call CommonHostInterface_Shutdown.


(** ** The operations, as the source writes them

    Most begin with the same test: off the worker thread the call is posted
    to the worker by name and the function returns. *)

Definition setDefaultSettings : M unit :=
  on_worker <- isOnWorkerThread ;;
  if negb on_worker then invokeMethod Op_setDefaultSettings QueuedConnection
  else SetDefaultSettings.

Definition applySettings (display_osd_messages : bool) : M unit :=
  on_worker <- isOnWorkerThread ;;
  if negb on_worker then invokeMethod (Op_applySettings display_osd_messages) QueuedConnection
  else ApplySettings display_osd_messages.

Definition reloadGameSettings : M unit := panic "IMPLEMENT ME".

Definition reloadInputBindings : M unit := panic "IMPLEMENT ME".

Definition refreshGameList (invalidate_cache invalidate_database : bool) : M unit :=
  on_worker <- isOnWorkerThread ;;
  Assert (negb on_worker) "!isOnWorkerThread()" ;;
  call GameList_SetSearchDirectoriesFromSettings ;;
  call (GameList_Refresh invalidate_cache invalidate_database) ;;
  call Emit_gameListRefreshed.

Definition bootSystem (params : SystemBootParameters) : M unit :=
  on_worker <- isOnWorkerThread ;;
  if negb on_worker then invokeMethod (Op_bootSystem params) QueuedConnection
  else
    call Emit_emulationStarting ;;
    booted <- call (BootSystem params) ;;
    if negb booted then ret tt
    else renderDisplay.

Definition resumeSystemFromState (filename : string) (boot_on_failure : bool) : M unit :=
  on_worker <- isOnWorkerThread ;;
  if negb on_worker
  then invokeMethod (Op_resumeSystemFromState filename boot_on_failure) QueuedConnection
  else
    call Emit_emulationStarting ;;
    if String.eqb filename "" then call ResumeSystemFromMostRecentState
    else call (ResumeSystemFromState filename boot_on_failure).

Definition loadState_file (filename : string) : M unit :=
  on_worker <- isOnWorkerThread ;;
  if negb on_worker then invokeMethod (Op_loadState_file filename) QueuedConnection
  else
    shut <- call System_IsShutdown ;;
    (if shut then call Emit_emulationStarting else ret tt) ;;
    call (LoadState_file filename).

Definition loadState_slot (global : bool) (slot : Z) : M unit :=
  on_worker <- isOnWorkerThread ;;
  if negb on_worker then invokeMethod (Op_loadState_slot global slot) QueuedConnection
  else call (LoadState_slot global slot).

Definition resumeSystemFromMostRecentState : M unit :=
  state_filename <- call GetMostRecentResumeSaveStatePath ;;
  if String.eqb state_filename ""
  then call (Emit_errorReported (Msg_text "No resume save state found."))
  else loadState_file state_filename.

Definition applyInputProfile (profile_path : string) : M unit :=
  on_worker <- isOnWorkerThread ;;
  if negb on_worker then invokeMethod (Op_applyInputProfile profile_path) QueuedConnection
  else panic "Fixme".

Definition saveInputProfile (profile_name : string) : M unit := panic "Fixme".

Definition powerOffSystem : M unit :=
  on_worker <- isOnWorkerThread ;;
  if negb on_worker
  then call System_CancelPendingStartup ;;
       invokeMethod Op_powerOffSystem QueuedConnection
  else
    save <- call ShouldSaveResumeState ;;
    call (PowerOffSystem save).

Definition powerOffSystemWithoutSaving : M unit :=
  on_worker <- isOnWorkerThread ;;
  if negb on_worker
  then call System_CancelPendingStartup ;;
       invokeMethod Op_powerOffSystemWithoutSaving QueuedConnection
  else call (PowerOffSystem false).

Definition synchronousPowerOffSystem : M unit :=
  on_worker <- isOnWorkerThread ;;
  if negb on_worker
  then call System_CancelPendingStartup ;;
       invokeMethod Op_powerOffSystem BlockingQueuedConnection
  else powerOffSystem.

Definition resetSystem : M unit :=
  on_worker <- isOnWorkerThread ;;
  if negb on_worker then invokeMethod Op_resetSystem QueuedConnection
  else
    shut <- call System_IsShutdown ;;
    if shut then call (Log_ErrorPrintf "resetSystem() called without system")
    else call HostInterface_ResetSystem.

Definition pauseSystem (paused wait_until_paused : bool) : M unit :=
  on_worker <- isOnWorkerThread ;;
  if negb on_worker
  then invokeMethod (Op_pauseSystem paused wait_until_paused)
         (if wait_until_paused then BlockingQueuedConnection else QueuedConnection)
  else call (CommonHostInterface_PauseSystem paused).

Definition changeDisc (new_disc_filename : string) : M unit :=
  on_worker <- isOnWorkerThread ;;
  if negb on_worker then invokeMethod (Op_changeDisc new_disc_filename) QueuedConnection
  else
    shut <- call System_IsShutdown ;;
    if shut then ret tt
    else if negb (String.eqb new_disc_filename "")
         then call (System_InsertMedia new_disc_filename)
         else call System_RemoveMedia.

Definition changeDiscFromPlaylist (index : Z) : M unit :=
  on_worker <- isOnWorkerThread ;;
  if negb on_worker then invokeMethod (Op_changeDiscFromPlaylist index) QueuedConnection
  else
    shut <- call System_IsShutdown ;;
    if shut then ret tt
    else
      switched <- call (System_SwitchMediaSubImage index) ;;
      if negb switched then ReportFormattedError (Msg_FailedSubimage index) else ret tt.

Definition loadCheatList (filename : string) : M unit :=
  on_worker <- isOnWorkerThread ;;
  if negb on_worker then invokeMethod (Op_loadCheatList filename) QueuedConnection
  else call (LoadCheatList filename).

(** [SetCheatCodeState] also receives [g_settings.auto_load_cheats]. *)
Definition setCheatEnabled (index : Z) (enabled : bool) : M unit :=
  on_worker <- isOnWorkerThread ;;
  if negb on_worker then invokeMethod (Op_setCheatEnabled index enabled) QueuedConnection
  else
    call (SetCheatCodeState index enabled) ;;
    call (Emit_cheatEnabled index enabled).

Definition applyCheat (index : Z) : M unit :=
  on_worker <- isOnWorkerThread ;;
  if negb on_worker then invokeMethod (Op_applyCheat index) QueuedConnection
  else call (ApplyCheatCode index).

Definition reloadPostProcessingShaders : M unit :=
  on_worker <- isOnWorkerThread ;;
  if negb on_worker then invokeMethod Op_reloadPostProcessingShaders QueuedConnection
  else call ReloadPostProcessingShaders.

Definition requestRenderWindowScale (scale : qreal) : M unit :=
  on_worker <- isOnWorkerThread ;;
  if negb on_worker then invokeMethod (Op_requestRenderWindowScale scale) QueuedConnection
  else call (RequestRenderWindowScale scale).

(** [executeOnEmulationThread]: on the worker the callback runs and, for a
    waiting caller, the event is signalled.  Off the worker the call is posted
    and, with [wait], the caller enters the loop
    [while (!done.TryWait(10)) qApp->processEvents(...); done.Reset();],
    whose turns are [executeOnEmulationThread_wait]. *)
Definition executeOnEmulationThread (callback : Callback) (wait : bool) : M unit :=
  on_worker <- isOnWorkerThread ;;
  if on_worker
  then
    call (RunCallback callback) ;;
    if wait then modify (set_m_worker_thread_sync_execute_done true) else ret tt
  else
    invokeMethod (Op_executeOnEmulationThread callback wait) QueuedConnection ;;
    if wait then modify (set_ui_wait UIPollSyncEvent) else ret tt.

(** One test of the loop condition: when the event is signalled the loop is
    left, the event is reset and the function returns ([true]); otherwise the
    caller processes its own events once and stays in the loop ([false]). *)
Definition executeOnEmulationThread_wait : M bool :=
  signalled <- gets m_worker_thread_sync_execute_done ;;
  if signalled
  then
    modify (set_m_worker_thread_sync_execute_done false) ;;
    modify (set_ui_wait UIRunning) ;;
    ret true
  else
    call QApp_processEvents ;;
    ret false.

Definition RunLater (func : Callback) : M unit :=
  invokeMethod (Op_executeOnEmulationThread func false) QueuedConnection.

Definition saveState_file (filename : string) (block_until_done : bool) : M unit :=
  on_worker <- isOnWorkerThread ;;
  if negb on_worker
  then invokeMethod (Op_saveState_file filename block_until_done)
         (if block_until_done then BlockingQueuedConnection else QueuedConnection)
  else
    shut <- call System_IsShutdown ;;
    if negb shut then call (SaveState_file filename) else ret tt.

Definition saveState_slot (global : bool) (slot : Z) (block_until_done : bool) : M unit :=
  on_worker <- isOnWorkerThread ;;
  if negb on_worker
  then invokeMethod (Op_saveState_slot global slot block_until_done)
         (if block_until_done then BlockingQueuedConnection else QueuedConnection)
  else
    shut <- call System_IsShutdown ;;
    if negb shut then call (SaveState_slot global slot) else ret tt.

Definition undoLoadState : M unit :=
  on_worker <- isOnWorkerThread ;;
  if negb on_worker then invokeMethod Op_undoLoadState QueuedConnection
  else call UndoLoadState.

Definition setAudioOutputVolume (volume fast_forward_volume : Z) : M unit :=
  on_worker <- isOnWorkerThread ;;
  if negb on_worker
  then invokeMethod (Op_setAudioOutputVolume volume fast_forward_volume) QueuedConnection
  else
    modify_env (set_audio_output_volume volume) ;;
    modify_env (set_audio_fast_forward_volume fast_forward_volume) ;;
    stream <- gets (fun h => m_audio_stream (env h)) ;;
    if stream then call AudioStream_SetOutputVolume_GetAudioOutputVolume else ret tt.

Definition setAudioOutputMuted (muted : bool) : M unit :=
  on_worker <- isOnWorkerThread ;;
  if negb on_worker then invokeMethod (Op_setAudioOutputMuted muted) QueuedConnection
  else
    modify_env (set_audio_output_muted muted) ;;
    stream <- gets (fun h => m_audio_stream (env h)) ;;
    if stream then call AudioStream_SetOutputVolume_GetAudioOutputVolume else ret tt.

Definition startDumpingAudio : M unit :=
  on_worker <- isOnWorkerThread ;;
  if negb on_worker then invokeMethod Op_startDumpingAudio QueuedConnection
  else call StartDumpingAudio.

Definition stopDumpingAudio : M unit :=
  on_worker <- isOnWorkerThread ;;
  if negb on_worker then invokeMethod Op_stopDumpingAudio QueuedConnection
  else call StopDumpingAudio.

Definition singleStepCPU : M unit :=
  on_worker <- isOnWorkerThread ;;
  if negb on_worker then invokeMethod Op_singleStepCPU BlockingQueuedConnection
  else
    valid <- call System_IsValid ;;
    if negb valid then ret tt
    else call System_SingleStepCPU ;; renderDisplay.

Definition dumpRAM (filename : string) : M unit :=
  on_worker <- isOnWorkerThread ;;
  if negb on_worker then invokeMethod (Op_dumpRAM filename) QueuedConnection
  else
    dumped <- call (System_DumpRAM filename) ;;
    ReportFormattedMessage (Msg_Dumped "RAM" dumped filename).

Definition dumpVRAM (filename : string) : M unit :=
  on_worker <- isOnWorkerThread ;;
  if negb on_worker then invokeMethod (Op_dumpVRAM filename) QueuedConnection
  else
    dumped <- call (System_DumpVRAM filename) ;;
    ReportFormattedMessage (Msg_Dumped "VRAM" dumped filename).

Definition dumpSPURAM (filename : string) : M unit :=
  on_worker <- isOnWorkerThread ;;
  if negb on_worker then invokeMethod (Op_dumpSPURAM filename) QueuedConnection
  else
    dumped <- call (System_DumpSPURAM filename) ;;
    ReportFormattedMessage (Msg_Dumped "SPU RAM" dumped filename).

Definition saveScreenshot : M unit :=
  on_worker <- isOnWorkerThread ;;
  if negb on_worker then invokeMethod Op_saveScreenshot QueuedConnection
  else call SaveScreenshot.

(** [stopThread] posts [doStopThread] and then waits for the worker thread
    to end ([m_worker_thread->wait()]). *)
Definition stopThread : M unit :=
  on_worker <- isOnWorkerThread ;;
  Assert (negb on_worker) "!isOnWorkerThread()" ;;
  invokeMethod Op_doStopThread QueuedConnection ;;
  modify (set_ui_wait UIWaitThread).

Definition doStopThread : M unit :=
  modify (set_m_shutdown_flag true) ;;
  modify_env (set_event_loop_exit true).

(** The method an [Op] names. *)
Definition run_op (op : Op) : M unit :=
  match op with
  | Op_setDefaultSettings => setDefaultSettings
  | Op_applySettings d => applySettings d
  | Op_refreshGameList c d => refreshGameList c d
  | Op_bootSystem p => bootSystem p
  | Op_resumeSystemFromState f b => resumeSystemFromState f b
  | Op_resumeSystemFromMostRecentState => resumeSystemFromMostRecentState
  | Op_redrawDisplayWindow => redrawDisplayWindow
  | Op_toggleFullscreen => toggleFullscreen
  | Op_applyInputProfile p => applyInputProfile p
  | Op_saveInputProfile p => saveInputProfile p
  | Op_powerOffSystem => powerOffSystem
  | Op_powerOffSystemWithoutSaving => powerOffSystemWithoutSaving
  | Op_synchronousPowerOffSystem => synchronousPowerOffSystem
  | Op_resetSystem => resetSystem
  | Op_pauseSystem p w => pauseSystem p w
  | Op_changeDisc f => changeDisc f
  | Op_changeDiscFromPlaylist i => changeDiscFromPlaylist i
  | Op_loadCheatList f => loadCheatList f
  | Op_setCheatEnabled i e => setCheatEnabled i e
  | Op_applyCheat i => applyCheat i
  | Op_reloadPostProcessingShaders => reloadPostProcessingShaders
  | Op_requestRenderWindowScale s => requestRenderWindowScale s
  | Op_executeOnEmulationThread cb w => executeOnEmulationThread cb w
  | Op_RunLater f => RunLater f
  | Op_loadState_file f => loadState_file f
  | Op_loadState_slot g s => loadState_slot g s
  | Op_saveState_file f b => saveState_file f b
  | Op_saveState_slot g s b => saveState_slot g s b
  | Op_undoLoadState => undoLoadState
  | Op_setAudioOutputVolume v f => setAudioOutputVolume v f
  | Op_setAudioOutputMuted m => setAudioOutputMuted m
  | Op_startDumpingAudio => startDumpingAudio
  | Op_stopDumpingAudio => stopDumpingAudio
  | Op_singleStepCPU => singleStepCPU
  | Op_dumpRAM f => dumpRAM f
  | Op_dumpVRAM f => dumpVRAM f
  | Op_dumpSPURAM f => dumpSPURAM f
  | Op_saveScreenshot => saveScreenshot
  | Op_stopThread => stopThread
  | Op_doStopThread => doStopThread
  | Op_reloadGameSettings => reloadGameSettings
  | Op_reloadInputBindings => reloadInputBindings
  end.


(** ** The worker thread: [threadEntryPoint] *)

(** A posted call reaches the bridge on the worker thread; a caller blocked
    in [Qt::BlockingQueuedConnection] resumes when the method has returned. *)
Definition deliver (entry : Op * ConnectionType) : M unit :=
  run_op (fst entry) ;;
  note (EvDelivered (fst entry) (snd entry)) ;;
  match snd entry with
  | BlockingQueuedConnection => modify (set_ui_wait UIRunning)
  | QueuedConnection => ret tt
  end.

Fixpoint deliver_all (entries : list (Op * ConnectionType)) : M unit :=
  match entries with
  | [] => ret tt
  | entry :: rest => deliver entry ;; deliver_all rest
  end.

(** [m_worker_thread_event_loop->processEvents(QEventLoop::AllEvents)]: the
    calls posted so far are delivered, oldest first. *)
Definition processEvents_AllEvents : M unit :=
  entries <- gets posted ;;
  modify (set_posted []) ;;
  deliver_all entries.

(** The body of [if (System::IsRunning())]. *)
Definition threadEntryPoint_running : M unit :=
  display_all_frames <- gets (fun h => m_display_all_frames (env h)) ;;
  (if display_all_frames then call System_RunFrame else call System_RunFrames) ;;
  call InputManager_PollSources ;;
  frame_step_request <- gets (fun h => m_frame_step_request (env h)) ;;
  (if frame_step_request
   then modify_env (set_m_frame_step_request false) ;;
        call (CommonHostInterface_PauseSystem true)
   else ret tt) ;;
  renderDisplay ;;
  call System_UpdatePerformanceCounters ;;
  throttler_enabled <- gets (fun h => m_throttler_enabled (env h)) ;;
  if throttler_enabled then call System_Throttle else ret tt.

(** What follows the loop. *)
Definition threadEntryPoint_exit : M unit :=
  shutdownOnThread ;;
  timer <- gets s_settings_save_timer ;;
  match timer with
  | Some _ => modify (set_s_settings_save_timer None) ;; SaveSettings
  | None => ret tt
  end ;;
  call moveToThread_original_thread.

(** Where the worker thread stands between two pieces of [threadEntryPoint]. *)
Inductive WorkerPC :=
| AtThreadEntry      (* Thread::run has just called threadEntryPoint *)
| AtLoopHead         (* before the test of m_shutdown_flag *)
| AtProcessEvents    (* after the branch, before processEvents and PollAndUpdate *)
| InExec             (* inside m_worker_thread_event_loop->exec() *)
| ThreadFinished.

Definition release_thread_waiter (h : Host) : Host :=
  match ui_wait h with
  | UIWaitThread => set_ui_wait UIRunning h
  | _ => h
  end.

(** [Thread::setInitResult] stores the result and signals [m_init_event],
    which ends [waitForInit] on the thread that called [Initialize]. *)
Definition release_init_waiter (h : Host) : Host :=
  match ui_wait h with
  | UIWaitInit => set_ui_wait UIRunning h
  | _ => h
  end.

(** One piece of [threadEntryPoint]. Inside [exec()] the event loop delivers
    what is posted and returns when [quit()] was called; with nothing posted
    and no [quit()] the thread stays parked. *)
Definition worker_step (pc : WorkerPC) : M WorkerPC :=
  match pc with
  | AtThreadEntry =>
      result <- initializeOnThread ;;
      call (Thread_setInitResult result) ;;
      modify release_init_waiter ;;
      ret AtLoopHead
  | AtLoopHead =>
      shutdown <- gets m_shutdown_flag ;;
      if shutdown
      then threadEntryPoint_exit ;; modify release_thread_waiter ;; ret ThreadFinished
      else
        running <- call System_IsRunning ;;
        if running
        then threadEntryPoint_running ;; ret AtProcessEvents
        else
          fsui <- call FullscreenUI_IsInitialized ;;
          valid <- (if fsui then call System_IsValid else ret false) ;;
          if negb fsui || negb valid
          then modify_env (set_event_loop_exit false) ;; ret InExec
          else renderDisplay ;; ret AtProcessEvents
  | AtProcessEvents =>
      processEvents_AllEvents ;;
      call PollAndUpdate ;;
      ret AtLoopHead
  | InExec =>
      processEvents_AllEvents ;;
      quit <- gets (fun h => event_loop_exit (env h)) ;;
      if quit then ret AtLoopHead else ret InExec
  | ThreadFinished => ret ThreadFinished
  end.

(** ** The two threads together *)

(** Calls of the settings setters, as a handler makes them. *)
Inductive Mutation :=
| Mut_SetBool (section key : string) (value : bool)
| Mut_SetInt (section key : string) (value : Z)
| Mut_SetFloat (section key : string) (value : Z)
| Mut_SetString (section key value : string)
| Mut_SetStringList (section key : string) (values : list string)
| Mut_AddToStringList (section key value : string)
| Mut_RemoveFromStringList (section key value : string)
| Mut_RemoveSettingValue (section key : string).

Definition run_mutation (mu : Mutation) : M unit :=
  match mu with
  | Mut_SetBool s k v => SetBaseBoolSettingValue s k v
  | Mut_SetInt s k v => SetBaseIntSettingValue s k v
  | Mut_SetFloat s k v => SetBaseFloatSettingValue s k v
  | Mut_SetString s k v => SetBaseStringSettingValue s k v
  | Mut_SetStringList s k v => SetBaseStringListSettingValue s k v
  | Mut_AddToStringList s k v => AddBaseValueToStringList s k v ;; ret tt
  | Mut_RemoveFromStringList s k v => RemoveBaseValueFromStringList s k v ;; ret tt
  | Mut_RemoveSettingValue s k => RemoveBaseSettingValue s k
  end.

Record Sys := {
  host : Host;
  worker_pc : WorkerPC;
  history : list (Thread * Event);   (* who did what, oldest first *)
  crashed : option string            (* the process stopped in a Panic or a failed Assert *)
}.

(** The outcome of a piece of code that ran on thread [t]. *)
Definition absorb {A} (t : Thread) (pc_of : A -> WorkerPC) (r : Res A) (s : Sys) : Sys :=
  match r with
  | Ok a h tr =>
      {| host := h; worker_pc := pc_of a;
         history := history s ++ map (pair t) tr; crashed := None |}
  | Panic msg h tr =>
      {| host := h; worker_pc := worker_pc s;
         history := history s ++ map (pair t) tr; crashed := Some msg |}
  end.

Inductive Tick :=
| TUI (op : Op)              (* a handler of the UI thread calls the bridge *)
| TUIPoll                    (* the UI thread tests the condition of its wait loop *)
| TMutate (mu : Mutation)    (* a handler of the UI thread calls a settings setter *)
| TElapse (ms : nat)         (* time passes *)
| TTimeout (t : Thread)      (* the event loop of thread t delivers the save timer's timeout *)
| TWorker.                   (* the worker thread runs its next piece *)

Definition ui_is_running (h : Host) : bool :=
  match ui_wait h with UIRunning => true | _ => false end.

Definition ui_is_polling (h : Host) : bool :=
  match ui_wait h with UIPollSyncEvent => true | _ => false end.

Definition save_timer_due (h : Host) : bool :=
  match s_settings_save_timer h with
  | Some timer => (deadline timer <=? now h)%nat
  | None => false
  end.

Definition processes_events (t : Thread) (s : Sys) : bool :=
  match t with
  | UIThread => ui_is_running (host s) || ui_is_polling (host s)
  | WorkerThread =>
      match worker_pc s with
      | AtProcessEvents | InExec => true
      | _ => false
      end
  end.

Definition step (k : Tick) (s : Sys) : Sys :=
  match crashed s with
  | Some _ => s
  | None =>
      match k with
      | TUI op =>
          if ui_is_running (host s)
          then absorb UIThread (fun _ => worker_pc s) (run_op op UIThread (host s)) s
          else s
      | TUIPoll =>
          if ui_is_polling (host s)
          then absorb UIThread (fun _ => worker_pc s)
                 (executeOnEmulationThread_wait UIThread (host s)) s
          else s
      | TMutate mu =>
          if ui_is_running (host s)
          then absorb UIThread (fun _ => worker_pc s) (run_mutation mu UIThread (host s)) s
          else s
      | TElapse ms =>
          {| host := set_now (now (host s) + ms) (host s); worker_pc := worker_pc s;
             history := history s; crashed := None |}
      | TTimeout t =>
          if save_timer_due (host s) && processes_events t s
          then absorb t (fun _ => worker_pc s) (SaveSettings t (host s)) s
          else s
      | TWorker =>
          absorb WorkerThread (fun pc => pc) (worker_step (worker_pc s) WorkerThread (host s)) s
      end
  end.

Definition run (ks : list Tick) (s : Sys) : Sys := fold_left (fun s k => step k s) ks s.



Definition events (hist : list (Thread * Event)) : list Event := map snd hist.

Definition is_emulation_step (ev : Event) : bool :=
  match ev with
  | EvCall System_RunFrame | EvCall System_RunFrames => true
  | _ => false
  end.




(** The bridge as the constructor leaves it, and the program right after
    [createThread]: the worker is at its entry, the UI thread in [waitForInit]. *)
Definition initial_host (e : Env) (file : option Store) (writable : bool) : Host :=
  {| m_is_rendering_to_main := false; m_is_fullscreen := false;
     m_is_exclusive_fullscreen := false; m_lost_exclusive_fullscreen := false;
     m_shutdown_flag := false; m_worker_thread_sync_execute_done := false;
     m_background_controller_polling_timer := None;
     s_base_settings_interface := ∅; s_settings_save_timer := None;
     settings_file := file; settings_file_writable := writable;
     posted := []; ui_wait := UIWaitInit; now := 0; env := e |}.

Definition initial_sys (e : Env) (file : option Store) (writable : bool) : Sys :=
  {| host := initial_host e file writable; worker_pc := AtThreadEntry;
     history := []; crashed := None |}.


(** * Properties *)

(** ** Runs of the monad *)

Lemma bind_run {A B} (m : M A) (k : A -> M B) (t : Thread) (h : Host) :
  bind m k t h =
  match m t h with
  | Ok a h1 tr1 =>
      match k a t h1 with
      | Ok b h2 tr2 => Ok b h2 (tr1 ++ tr2)
      | Panic msg h2 tr2 => Panic msg h2 (tr1 ++ tr2)
      end
  | Panic msg h1 tr1 => Panic msg h1 tr1
  end.
Proof. reflexivity. Qed.

(** [keeps t f m]: running [m] on thread [t] leaves the observation [f] of the
    bridge as it was, also when the run ends in a [Panic]. *)
Definition keeps {A B} (t : Thread) (f : Host -> B) (m : M A) : Prop :=
  forall h, f (state_of (m t h)) = f h.

(** [ensures t m h Q]: if [m] returns from [h], its result and final state
    satisfy [Q]. *)
Definition ensures {A} (t : Thread) (m : M A) (h : Host) (Q : A -> Host -> Prop) : Prop :=
  match m t h with
  | Ok a h' _ => Q a h'
  | Panic _ _ _ => True
  end.

Lemma keeps_bind {A B D} t (f : Host -> D) (m : M A) (k : A -> M B) :
  keeps t f m -> (forall a, keeps t f (k a)) -> keeps t f (bind m k).
Proof.
  intros Hm Hk h. unfold bind.
  specialize (Hm h). destruct (m t h) as [a h1 tr1|msg h1 tr1]; simpl in *; [|exact Hm].
  specialize (Hk a h1). destruct (k a t h1); simpl in *; congruence.
Qed.

Lemma keeps_ret {A D} t (f : Host -> D) (a : A) : keeps t f (ret a).
Proof. intros h. reflexivity. Qed.

Lemma keeps_gets {A D} t (f : Host -> D) (g : Host -> A) : keeps t f (gets g).
Proof. intros h. reflexivity. Qed.

Lemma keeps_note {D} t (f : Host -> D) e : keeps t f (note e).
Proof. intros h. reflexivity. Qed.

Lemma keeps_panic {A D} t (f : Host -> D) msg : keeps t f (@panic A msg).
Proof. intros h. reflexivity. Qed.

Lemma keeps_Assert {D} t (f : Host -> D) cond msg : keeps t f (Assert cond msg).
Proof. intros h. destruct cond; reflexivity. Qed.

Lemma keeps_modify {D} t (f : Host -> D) (g : Host -> Host) :
  (forall h, f (g h) = f h) -> keeps t f (modify g).
Proof. intros Hg h. apply Hg. Qed.

Lemma keeps_call {D} t (f : Host -> D) (c : Call) :
  (forall e h, f (set_env e h) = f h) -> keeps t f (call c).
Proof. intros He h. unfold call. destruct (ext c (env h)). apply He. Qed.

Lemma keeps_modify_env {D} t (f : Host -> D) (g : Env -> Env) :
  (forall e h, f (set_env e h) = f h) -> keeps t f (modify_env g).
Proof. intros He h. apply He. Qed.

Lemma keeps_isOnWorkerThread {A D} t (f : Host -> D) (k : bool -> M A) :
  keeps t f (k (Thread_eqb t WorkerThread)) -> keeps t f (bind isOnWorkerThread k).
Proof.
  intros Hk h. specialize (Hk h). unfold bind, isOnWorkerThread.
  destruct (k _ t h); exact Hk.
Qed.

Lemma keeps_invokeMethod {D} t (f : Host -> D) op conn :
  (forall q h, f (set_posted q h) = f h) ->
  (forall w h, f (set_ui_wait w h) = f h) ->
  keeps t f (invokeMethod op conn).
Proof.
  intros Hq Hw h. unfold invokeMethod. simpl.
  destruct conn; rewrite ?Hw; apply Hq.
Qed.

Lemma ensures_bind {A B} t (m : M A) (k : A -> M B) h (Q : B -> Host -> Prop) :
  ensures t m h (fun a h1 => ensures t (k a) h1 Q) -> ensures t (bind m k) h Q.
Proof.
  unfold ensures, bind. destruct (m t h) as [a h1 tr1|]; [|trivial].
  destruct (k a t h1); trivial.
Qed.

Lemma ensures_ret {A} t (a : A) h (Q : A -> Host -> Prop) : Q a h -> ensures t (ret a) h Q.
Proof. trivial. Qed.

Lemma ensures_gets {A} t (g : Host -> A) h (Q : A -> Host -> Prop) :
  Q (g h) h -> ensures t (gets g) h Q.
Proof. trivial. Qed.

Lemma ensures_modify t (g : Host -> Host) h (Q : unit -> Host -> Prop) :
  Q tt (g h) -> ensures t (modify g) h Q.
Proof. trivial. Qed.

Lemma ensures_note t e h (Q : unit -> Host -> Prop) : Q tt h -> ensures t (note e) h Q.
Proof. trivial. Qed.

Lemma ensures_panic {A} t msg h (Q : A -> Host -> Prop) : ensures t (panic msg) h Q.
Proof. exact I. Qed.


Lemma ensures_weaken {A} t (m : M A) h (Q Q' : A -> Host -> Prop) :
  ensures t m h Q -> (forall a h', Q a h' -> Q' a h') -> ensures t m h Q'.
Proof. unfold ensures. destruct (m t h); auto. Qed.

Lemma ensures_keeps {A D} t (f : Host -> D) (m : M A) h :
  keeps t f m -> ensures t m h (fun _ h' => f h' = f h).
Proof. intros Hk. specialize (Hk h). unfold ensures. destruct (m t h); auto. Qed.

Lemma ensures_and {A} t (m : M A) h (Q Q' : A -> Host -> Prop) :
  ensures t m h Q -> ensures t m h Q' -> ensures t m h (fun a h' => Q a h' /\ Q' a h').
Proof. unfold ensures. destruct (m t h); auto. Qed.

(** A call keeps [f] when [f] does not read the collaborators' state. *)
Ltac keeps_call_by He :=
  lazymatch goal with
  | |- keeps ?t ?f (call ?c) => apply (keeps_call t f c), He
  end.

(** One step of a [keeps] proof, by the shape of the code. *)
Ltac keeps_step :=
  lazymatch goal with
  | |- keeps _ _ (bind isOnWorkerThread _) => apply keeps_isOnWorkerThread; cbn [Thread_eqb negb]
  | |- keeps _ _ (bind _ _) => apply keeps_bind; [|intros ?]
  | |- keeps _ _ (ret _) => apply keeps_ret
  | |- keeps _ _ (gets _) => apply keeps_gets
  | |- keeps _ _ (note _) => apply keeps_note
  | |- keeps _ _ (panic _) => apply keeps_panic
  | |- keeps _ _ (Assert _ _) => apply keeps_Assert
  | |- keeps ?t ?f (call ?c) => apply (keeps_call t f c); reflexivity
  | |- keeps _ _ (modify_env _) => apply keeps_modify_env; reflexivity
  | |- keeps _ _ (modify _) => apply keeps_modify; reflexivity
  | |- keeps _ _ (invokeMethod _ _) => apply keeps_invokeMethod; reflexivity
  | |- keeps _ _ (if ?b then _ else _) => destruct b
  | |- keeps _ _ (match ?x with _ => _ end) => destruct x
  | |- keeps _ _ (let (_, _) := ?x in _) => destruct x
  end.

Ltac keeps_auto := repeat keeps_step; eauto.

(** ** Display state *)

(** [f] does not read what a display update writes: the collaborators' state,
    the exclusive-fullscreen flag and the posted calls. *)
Definition display_blind {D} (f : Host -> D) : Prop :=
  (forall e h, f (set_env e h) = f h) /\
  (forall b h, f (set_m_is_exclusive_fullscreen b h) = f h) /\
  (forall q h, f (set_posted q h) = f h) /\
  (forall w h, f (set_ui_wait w h) = f h).

Lemma keeps_renderDisplay {D} t (f : Host -> D) :
  (forall e h, f (set_env e h) = f h) -> keeps t f renderDisplay.
Proof. intros He. unfold renderDisplay. repeat (apply keeps_bind; [|intros ?]); keeps_call_by He. Qed.

Lemma keeps_redrawDisplayWindow {D} t (f : Host -> D) :
  display_blind f -> keeps t f redrawDisplayWindow.
Proof.
  intros (He & _ & Hq & Hw). unfold redrawDisplayWindow.
  apply keeps_isOnWorkerThread. destruct (Thread_eqb t WorkerThread); cbn [negb].
  - apply keeps_bind; [apply keeps_gets|intros d]. destruct d; cbn [negb]; [|apply keeps_ret].
    apply keeps_bind; [keeps_call_by He|intros s].
    destruct s; [apply keeps_ret|apply keeps_renderDisplay, He].
  - apply keeps_invokeMethod; assumption.
Qed.

Lemma keeps_updateDisplayState {D} t (f : Host -> D) :
  display_blind f -> keeps t f updateDisplayState.
Proof.
  intros Hf. pose proof Hf as (He & Hx & Hq & Hw). unfold updateDisplayState.
  apply keeps_bind; [apply keeps_gets|intros d]. destruct d; cbn [negb]; [|apply keeps_ret].
  repeat first
    [ apply keeps_redrawDisplayWindow, Hf
    | keeps_call_by He
    | apply keeps_modify, Hx
    | apply keeps_ret | apply keeps_gets | apply keeps_panic
    | apply keeps_bind; [|intros ?]
    | match goal with |- keeps _ _ (if ?b then _ else _) => destruct b end ].
Qed.

Lemma display_blind_fullscreen : display_blind m_is_fullscreen.
Proof. repeat split. Qed.

(** When the flag already has the requested value nothing happens. *)
Lemma SetFullscreen_same enabled t h :
  m_is_fullscreen h = enabled -> SetFullscreen enabled t h = Ok true h [].
Proof.
  intros <-. unfold SetFullscreen. rewrite bind_run. cbn.
  rewrite Bool.eqb_reflx. reflexivity.
Qed.

(** When it returns, [SetFullscreen] has returned true and set the flag; what
    a display update does not write is as before. *)
Lemma ensures_SetFullscreen {D} enabled t h (f : Host -> D) :
  display_blind f -> (forall b h, f (set_m_is_fullscreen b h) = f h) ->
  ensures t (SetFullscreen enabled) h
    (fun r h' => r = true /\ m_is_fullscreen h' = enabled /\ f h' = f h).
Proof.
  intros Hf Hfs. unfold SetFullscreen.
  apply ensures_bind, ensures_gets.
  destruct (Bool.eqb (m_is_fullscreen h) enabled) eqn:E.
  - apply ensures_ret. apply Bool.eqb_prop in E. auto.
  - apply ensures_bind, ensures_modify, ensures_bind.
    eapply ensures_weaken.
    + apply ensures_and;
        [apply (ensures_keeps t m_is_fullscreen), keeps_updateDisplayState, display_blind_fullscreen
        |apply (ensures_keeps t f), keeps_updateDisplayState, Hf].
    + cbn beta. intros _ h' [H1 H2]. apply ensures_ret.
      rewrite H1, H2, Hfs. auto.
Qed.


(** C10 — [SetFullscreen] is idempotent: with the flag already at the
    requested value it returns true, changes nothing and updates no display
    state (empty trace); and for every starting state two calls with the same
    argument give the same result, final state and trace as one call. *)
Theorem SetFullscreen_idempotent (enabled : bool) (t : Thread) (h : Host) :
  SetFullscreen (m_is_fullscreen h) t h = Ok true h []
  /\ (SetFullscreen enabled ;; SetFullscreen enabled) t h = SetFullscreen enabled t h.
Proof.
  split; [apply SetFullscreen_same; reflexivity|].
  rewrite bind_run.
  pose proof (ensures_SetFullscreen enabled t h (fun _ => tt)) as H.
  unfold ensures in H.
  destruct (SetFullscreen enabled t h) as [r h1 tr1|msg h1 tr1]; [|reflexivity].
  destruct H as (-> & Hfs & _); [repeat split|reflexivity|].
  rewrite (SetFullscreen_same enabled t h1 Hfs), app_nil_r. reflexivity.
Qed.

(** What neither a notification nor a display update writes. *)
Definition bridge_rest (h : Host) :=
  (m_is_rendering_to_main h, m_lost_exclusive_fullscreen h, m_shutdown_flag h,
   m_worker_thread_sync_execute_done h, m_background_controller_polling_timer h,
   s_base_settings_interface h, s_settings_save_timer h, settings_file h,
   settings_file_writable h, now h).

Lemma display_blind_bridge_rest : display_blind bridge_rest.
Proof. repeat split. Qed.




(** ** The running branch of the loop *)

(** Decide a test whose value no open call can change, or else name the
    result of the innermost call that is still open. *)
Ltac run_step :=
  first
    [ match goal with
      | |- context [if ?b then _ else _] =>
          lazymatch b with
          | context [ext _ _] => fail
          | _ => destruct b eqn:?; simpl
          end
      end
    | match goal with
      | |- context [ext ?c ?e] =>
          lazymatch e with
          | context [ext _ _] => fail
          | _ => let e' := fresh "e" in let r := fresh "r" in
                 destruct (ext c e) as [e' r]; simpl
          end
      end ].



(** ** Traces *)

(** [emits t P m]: every event of a run of [m] on thread [t] satisfies [P]. *)
Definition emits {A} (t : Thread) (P : Event -> bool) (m : M A) : Prop :=
  forall h, forallb P (trace_of (m t h)) = true.

Lemma emits_bind {A B} t P (m : M A) (k : A -> M B) :
  emits t P m -> (forall a, emits t P (k a)) -> emits t P (bind m k).
Proof.
  intros Hm Hk h. unfold bind.
  specialize (Hm h). destruct (m t h) as [a h1 tr1|msg h1 tr1]; simpl in *; [|exact Hm].
  specialize (Hk a h1). destruct (k a t h1); simpl in *; rewrite forallb_app, Hm, Hk; reflexivity.
Qed.

Lemma emits_ret {A} t P (a : A) : emits t P (ret a).
Proof. intros h. reflexivity. Qed.

Lemma emits_gets {A} t P (g : Host -> A) : emits t P (gets g).
Proof. intros h. reflexivity. Qed.

Lemma emits_modify t P (g : Host -> Host) : emits t P (modify g).
Proof. intros h. reflexivity. Qed.

Lemma emits_modify_env t P (g : Env -> Env) : emits t P (modify_env g).
Proof. intros h. reflexivity. Qed.

Lemma emits_panic {A} t P msg : emits t P (@panic A msg).
Proof. intros h. reflexivity. Qed.

Lemma emits_Assert t P cond msg : emits t P (Assert cond msg).
Proof. intros h. destruct cond; reflexivity. Qed.

Lemma emits_note t (P : Event -> bool) e : P e = true -> emits t P (note e).
Proof. intros He h. simpl. rewrite He. reflexivity. Qed.

Lemma emits_call t (P : Event -> bool) (c : Call) : P (EvCall c) = true -> emits t P (call c).
Proof. intros Hc h. unfold call. destruct (ext c (env h)). simpl. rewrite Hc. reflexivity. Qed.

Lemma emits_invokeMethod t (P : Event -> bool) op conn :
  P (EvInvoke op conn) = true -> emits t P (invokeMethod op conn).
Proof. intros Hc h. simpl. rewrite Hc. reflexivity. Qed.

Lemma emits_isOnWorkerThread {A} t P (k : bool -> M A) :
  emits t P (k (Thread_eqb t WorkerThread)) -> emits t P (bind isOnWorkerThread k).
Proof.
  intros Hk h. specialize (Hk h). unfold bind, isOnWorkerThread.
  destruct (k _ t h); exact Hk.
Qed.

(** ** Automation over the code *)

Ltac head_of x :=
  lazymatch x with
  | ?f _ => head_of f
  | _ => x
  end.

Ltac side_condition := intros; first [reflexivity | assumption | solve [eauto]].

(** One step of a [keeps] or [emits] proof, by the shape of the code; a
    function of the bridge is replaced by its body. *)
Ltac code_step :=
  lazymatch goal with
  | |- keeps _ _ (bind isOnWorkerThread _) =>
      apply keeps_isOnWorkerThread; cbv beta; cbn [Thread_eqb negb]
  | |- keeps _ _ (bind _ _) => apply keeps_bind; [|intros ?]
  | |- keeps _ _ (ret _) => apply keeps_ret
  | |- keeps _ _ (gets _) => apply keeps_gets
  | |- keeps _ _ (note _) => apply keeps_note
  | |- keeps _ _ (panic _) => apply keeps_panic
  | |- keeps _ _ (Assert _ _) => apply keeps_Assert
  | |- keeps ?t ?f (call ?c) => apply (keeps_call t f c); side_condition
  | |- keeps _ _ (modify_env _) => apply keeps_modify_env; side_condition
  | |- keeps _ _ (modify _) => apply keeps_modify; side_condition
  | |- keeps _ _ (invokeMethod _ _) => apply keeps_invokeMethod; side_condition
  | |- keeps _ _ (if ?b then _ else _) => destruct b
  | |- keeps _ _ (match ?x with _ => _ end) => destruct x
  | |- keeps _ _ ?m => let hd := head_of m in unfold hd
  | |- emits _ _ (bind isOnWorkerThread _) =>
      apply emits_isOnWorkerThread; cbv beta; cbn [Thread_eqb negb]
  | |- emits _ _ (bind _ _) => apply emits_bind; [|intros ?]
  | |- emits _ _ (ret _) => apply emits_ret
  | |- emits _ _ (gets _) => apply emits_gets
  | |- emits _ _ (note _) => apply emits_note; side_condition
  | |- emits _ _ (panic _) => apply emits_panic
  | |- emits _ _ (Assert _ _) => apply emits_Assert
  | |- emits ?t ?P (call ?c) => apply (emits_call t P c); side_condition
  | |- emits _ _ (modify_env _) => apply emits_modify_env
  | |- emits _ _ (modify _) => apply emits_modify
  | |- emits _ _ (invokeMethod _ _) => apply emits_invokeMethod; side_condition
  | |- emits _ _ (if ?b then _ else _) => destruct b
  | |- emits _ _ (match ?x with _ => _ end) => destruct x
  | |- emits _ _ ?m => let hd := head_of m in unfold hd
  end.

Ltac code_auto := repeat code_step.





(** ** A call of the bridge on the UI thread *)




(** Evaluate a run of the code as far as the collaborators allow. *)
Ltac run_eval :=
  cbv beta iota zeta delta
    [run_op run_mutation bind ret gets modify modify_env note panic Assert call
     isOnWorkerThread invokeMethod Thread_eqb negb
     setDefaultSettings applySettings reloadGameSettings reloadInputBindings refreshGameList
     bootSystem resumeSystemFromState loadState_file loadState_slot
     resumeSystemFromMostRecentState applyInputProfile saveInputProfile powerOffSystem
     powerOffSystemWithoutSaving synchronousPowerOffSystem resetSystem pauseSystem changeDisc
     changeDiscFromPlaylist loadCheatList setCheatEnabled applyCheat
     reloadPostProcessingShaders requestRenderWindowScale executeOnEmulationThread
     executeOnEmulationThread_wait RunLater saveState_file saveState_slot undoLoadState
     setAudioOutputVolume setAudioOutputMuted startDumpingAudio stopDumpingAudio singleStepCPU
     dumpRAM dumpVRAM dumpSPURAM saveScreenshot stopThread doStopThread redrawDisplayWindow
     toggleFullscreen
     SetBaseBoolSettingValue SetBaseIntSettingValue SetBaseFloatSettingValue
     SetBaseStringSettingValue SetBaseStringListSettingValue AddBaseValueToStringList
     RemoveBaseValueFromStringList RemoveBaseSettingValue QueueSettingsSave update_settings
     SaveSettings INI_Save];
  simpl.




(** ** Posted calls on the worker thread *)















(** ** An invariant of the two threads *)































(** ** Which thread runs what *)









Lemma absorb_history {A} t (pc_of : A -> WorkerPC) (r : Res A) s :
  history (absorb t pc_of r s) = history s ++ map (pair t) (trace_of r).
Proof. destruct r; reflexivity. Qed.







(** ** Posted calls and the steps of the emulation *)










(** ** Synchronous calls *)






(** ** Settings at start-up *)

(** The store right after [Load()], with the defaults when nothing could be
    loaded. *)
Definition loaded_settings (h : Host) : Store :=
  match settings_file h with
  | Some content => content
  | None => SetDefaultSettings_si ∅
  end.

(** The store after a reset. *)
Definition reset_settings : Store :=
  SetDefaultSettings_si (INI_SetIntValue ∅ "Main" "SettingsVersion" SETTINGS_VERSION).

(** Running a known first part of a sequence. *)
Definition prepend {A} (tr : list Event) (r : Res A) : Res A :=
  match r with
  | Ok a h tr2 => Ok a h (tr ++ tr2)
  | Panic msg h tr2 => Panic msg h (tr ++ tr2)
  end.

Lemma bind_Ok_run {A B} (m : M A) (k : A -> M B) t h a h1 tr1 :
  m t h = Ok a h1 tr1 -> bind m k t h = prepend tr1 (k a t h1).
Proof. intros H. unfold bind. rewrite H. reflexivity. Qed.

Lemma state_of_prepend {A} tr (r : Res A) : state_of (prepend tr r) = state_of r.
Proof. destruct r; reflexivity. Qed.

Lemma trace_of_prepend {A} tr (r : Res A) : trace_of (prepend tr r) = tr ++ trace_of r.
Proof. destruct r; reflexivity. Qed.

Lemma call_run (c : Call) t h :
  call c t h = Ok (snd (ext c (env h))) (set_env (ext_env c (env h)) h) [EvCall c].
Proof. unfold call, ext_env. destruct (ext c (env h)). reflexivity. Qed.

(** Run the first part of the sequence under execution: a piece of pure
    bookkeeping, a call, or a part with a known run. *)
Ltac run_pure :=
  match goal with
  | |- context [bind ?m ?k ?t ?h] =>
      let r := eval cbv beta iota delta
                 [gets modify modify_env ret note isOnWorkerThread update_settings] in (m t h) in
      lazymatch r with
      | Ok ?a ?h1 ?tr1 => rewrite (bind_Ok_run m k t h a h1 tr1 eq_refl); cbv beta
      end
  end.

Ltac run_call :=
  match goal with
  | |- context [bind (call ?c) ?k ?t ?h] =>
      rewrite (bind_Ok_run (call c) k t h _ _ _ (call_run c t h)); cbv beta
  end.

Ltac run_known H :=
  match goal with
  | |- context [bind ?m ?k ?t ?h] =>
      rewrite (bind_Ok_run m k t h _ _ _ H); cbv beta
  end.

(** From a windowed bridge an error report is the two notifications. *)
Lemma ReportError_windowed message t h :
  m_is_fullscreen h = false ->
  ReportError message t h =
  Ok tt (set_env (ext_seq [HostInterface_ReportError message; Emit_errorReported message]
                    (env h)) h)
    [EvCall (HostInterface_ReportError message); EvCall (Emit_errorReported message)].
Proof.
  intros Hfs. unfold ReportError.
  run_call. run_pure. cbn [m_is_fullscreen set_env]. rewrite Hfs.
  run_pure. run_call. cbn.
  match goal with |- Ok ?x _ _ = _ => destruct x end. reflexivity.
Qed.

Lemma INI_Save_run t h :
  INI_Save t h =
  Ok (settings_file_writable h)
    (if settings_file_writable h
     then set_settings_file (Some (s_base_settings_interface h)) h else h)
    [EvSettingsSave (settings_file_writable h)].
Proof. run_eval. destruct (settings_file_writable h); reflexivity. Qed.

(** What follows the settings in [initializeOnThread] leaves the store and
    the file alone. *)
Lemma keeps_initialize_rest t :
  keeps t (fun h => (s_base_settings_interface h, settings_file h))
    (initialized <- call CommonHostInterface_Initialize ;;
     if negb initialized then ret false
     else
       setImGuiFont ;;
       createBackgroundControllerPollTimer ;;
       startBackgroundControllerPollTimer ;;
       ret true).
Proof. code_auto. Qed.

(** C8 — [initializeOnThread] on a bridge that is not fullscreen (as the
    constructor leaves it): when the version stamp of the loaded settings is
    not [SETTINGS_VERSION], the mismatch is reported as an error, the store is
    cleared, stamped with [SETTINGS_VERSION], filled with the defaults and
    saved; when the stamp matches, the store is what was loaded, nothing is
    reported and nothing is saved. *)
Theorem initializeOnThread_settings_version (t : Thread) (h : Host) :
  m_is_fullscreen h = false ->
  let version := INI_GetIntValue (loaded_settings h) "Main" "SettingsVersion" (-1) in
  let r := initializeOnThread t h in
  (version <> SETTINGS_VERSION ->
   s_base_settings_interface (state_of r) = reset_settings
   /\ settings_file (state_of r)
      = (if settings_file_writable h then Some reset_settings else settings_file h)
   /\ exists rest,
        trace_of r =
        [EvCall SetUserDirectory;
         EvCall (HostInterface_ReportError (Msg_SettingsVersionMismatch version SETTINGS_VERSION));
         EvCall (Emit_errorReported (Msg_SettingsVersionMismatch version SETTINGS_VERSION));
         EvSettingsSave (settings_file_writable h)] ++ rest)
  /\ (version = SETTINGS_VERSION ->
      s_base_settings_interface (state_of r) = loaded_settings h
      /\ settings_file (state_of r) = settings_file h
      /\ exists rest,
           trace_of r = [EvCall SetUserDirectory; EvCall CommonHostInterface_Initialize] ++ rest).
Proof.
  intros Hfs version r.
  set (h1 := set_s_base_settings_interface ∅ (set_env (ext_env SetUserDirectory (env h)) h)).
  assert (Hload : exists h2,
             (loaded <- INI_Load ;;
              (if negb loaded then update_settings SetDefaultSettings_si else ret tt)) t h1
             = Ok tt h2 []
             /\ s_base_settings_interface h2 = loaded_settings h
             /\ settings_file h2 = settings_file h
             /\ settings_file_writable h2 = settings_file_writable h
             /\ m_is_fullscreen h2 = false).
  { unfold loaded_settings. subst h1. run_eval. unfold INI_Load. run_eval.
    destruct (settings_file h) eqn:Hf; simpl; eexists; repeat split; assumption. }
  destruct Hload as (h2 & Hload & Hstore & Hfile & Hw & Hfs2).
  assert (Hinit : forall {B} (k : M B),
             ((loaded <- INI_Load ;;
               (if negb loaded then update_settings SetDefaultSettings_si else ret tt) ;;
               k) t h1) = k t h2).
  { intros B k. revert Hload. unfold bind.
    destruct (INI_Load t h1) as [l hl trl|]; [|discriminate].
    destruct ((if negb l then update_settings SetDefaultSettings_si else ret tt) t hl)
      as [u hu tru|]; [|discriminate].
    intros H. injection H as _ -> Htr. apply app_eq_nil in Htr as [-> ->].
    destruct (k t h2); reflexivity. }
  pose proof (keeps_initialize_rest t) as Hrest.
  split; intros Hv.
  - apply Z.eqb_neq in Hv.
    eassert (Hr : r = _).
    { subst r. unfold initializeOnThread. run_call. run_pure. fold h1.
      rewrite Hinit. run_pure. rewrite Hstore. fold version. rewrite Hv. cbn [negb].
      unfold ReportFormattedError. rewrite bind_run.
      run_known (ReportError_windowed
                   (Msg_SettingsVersionMismatch version SETTINGS_VERSION) t h2 Hfs2).
      do 3 run_pure.
      match goal with
      | |- context [bind INI_Save ?k ?t ?hh] =>
          rewrite (bind_Ok_run INI_Save k t hh _ _ _ (INI_Save_run t hh)); cbv beta
      end.
      cbn [prepend app ret set_s_base_settings_interface s_base_settings_interface set_env
           settings_file_writable]. rewrite Hw. reflexivity. }
    rewrite Hr. clear Hr.
    match goal with
    | |- context [bind ?m ?k t ?hh] =>
        specialize (Hrest hh); destruct (bind m k t hh) as [b h3 tr3|msg h3 tr3]
    end;
      cbn [state_of trace_of prepend app] in *; injection Hrest as -> ->;
      (destruct (settings_file_writable h);
       cbn; unfold reset_settings, INI_Clear; rewrite ?Hfile; repeat split; eauto).
  - apply Z.eqb_eq in Hv.
    eassert (Hr : r = _).
    { subst r. unfold initializeOnThread. run_call. run_pure. fold h1.
      rewrite Hinit. run_pure. rewrite Hstore. fold version. rewrite Hv. cbn [negb].
      run_pure. run_call. reflexivity. }
    rewrite Hr. clear Hr.
    specialize (Hrest h2). revert Hrest. run_call. intros Hrest.
    match type of Hrest with
    | context [prepend _ ?rr] => destruct rr as [b h3 tr3|msg h3 tr3]
    end;
      cbn [state_of trace_of prepend app] in *; injection Hrest as -> ->;
      cbn [s_base_settings_interface settings_file set_env]; rewrite Hstore, Hfile;
      repeat split; eauto.
Qed.

(** ** The settings save is debounced *)



(** A burst: each setter call comes some milliseconds after the one before. *)
Definition burst (calls : list (nat * Mutation)) : list Tick :=
  flat_map (fun call => [TElapse (fst call); TMutate (snd call)]) calls.







Lemma run_cons (k : Tick) (ks : list Tick) (s : Sys) : run (k :: ks) s = run ks (step k s).
Proof. reflexivity. Qed.



Lemma burst_app calls1 calls2 : burst (calls1 ++ calls2) = burst calls1 ++ burst calls2.
Proof. apply flat_map_app. Qed.







(** ** The teardown of the worker thread *)

(** C7 — the worker thread at the head of the loop with the shutdown flag
    set and a settings save pending: the teardown shuts the core down,
    resets the timer and calls [SaveSettings] on the worker thread, where
    the assertion at the head of [SaveSettings] fails. The process stops
    there: nothing is saved, the file is as it was and the thread has not
    finished. *)
Theorem teardown_save_fails_assertion (h : Host) (timer : QTimer) (hist : list (Thread * Event)) :
  let pending := set_m_shutdown_flag true (set_s_settings_save_timer (Some timer) h) in
  let s := {| host := pending; worker_pc := AtLoopHead; history := hist; crashed := None |} in
  let s' := step TWorker s in
  crashed s' = Some "Saving should happen on the UI thread."
  /\ worker_pc s' = AtLoopHead
  /\ history s' = hist ++ [(WorkerThread, EvCall CommonHostInterface_Shutdown)]
  /\ settings_file (host s') = settings_file h
  /\ s_base_settings_interface (host s') = s_base_settings_interface h
  /\ s_settings_save_timer (host s') = None.
Proof.
  intros pending s s'. subst s' s pending.
  unfold step. cbn [crashed host worker_pc worker_step].
  unfold threadEntryPoint_exit, shutdownOnThread, destroyBackgroundControllerPollTimer, absorb.
  run_eval. destruct (ext CommonHostInterface_Shutdown _) as [e []].
  cbn. repeat split; reflexivity.
Qed.

(** * Further properties of the bridge *)

(** ** Where an operation can stop the process *)

(** [fails_only msgs t m]: a run of [m] on thread [t] returns, or stops the
    process with one of the messages [msgs]. *)
Definition fails_only {A} (msgs : list string) (t : Thread) (m : M A) : Prop :=
  forall h, match m t h with
            | Ok _ _ _ => True
            | Panic msg _ _ => In msg msgs
            end.

Definition DISPLAY_UPDATE_FAILED : string :=
  "Failed to make device context current after updating".



Lemma fails_only_bind {A B} msgs t (m : M A) (k : A -> M B) :
  fails_only msgs t m -> (forall a, fails_only msgs t (k a)) -> fails_only msgs t (bind m k).
Proof.
  intros Hm Hk h. unfold bind. specialize (Hm h).
  destruct (m t h) as [a h1 tr1|msg h1 tr1]; [|exact Hm].
  specialize (Hk a h1). destruct (k a t h1); exact Hk.
Qed.

Lemma fails_only_ret {A} msgs t (a : A) : fails_only msgs t (ret a).
Proof. intros h. exact I. Qed.

Lemma fails_only_gets {A} msgs t (g : Host -> A) : fails_only msgs t (gets g).
Proof. intros h. exact I. Qed.

Lemma fails_only_modify msgs t (g : Host -> Host) : fails_only msgs t (modify g).
Proof. intros h. exact I. Qed.

Lemma fails_only_modify_env msgs t (g : Env -> Env) : fails_only msgs t (modify_env g).
Proof. intros h. exact I. Qed.

Lemma fails_only_note msgs t e : fails_only msgs t (note e).
Proof. intros h. exact I. Qed.

Lemma fails_only_call msgs t (c : Call) : fails_only msgs t (call c).
Proof. intros h. unfold call. destruct (ext c (env h)). exact I. Qed.

Lemma fails_only_invokeMethod msgs t op conn : fails_only msgs t (invokeMethod op conn).
Proof. intros h. exact I. Qed.

Lemma fails_only_panic {A} msgs t msg : In msg msgs -> fails_only msgs t (@panic A msg).
Proof. intros Hin h. exact Hin. Qed.

Lemma fails_only_Assert msgs t cond msg :
  cond = true \/ In msg msgs -> fails_only msgs t (Assert cond msg).
Proof. intros [->|Hin] h; [exact I|]. destruct cond; [exact I|exact Hin]. Qed.

Lemma fails_only_isOnWorkerThread {A} msgs t (k : bool -> M A) :
  fails_only msgs t (k (Thread_eqb t WorkerThread)) ->
  fails_only msgs t (bind isOnWorkerThread k).
Proof.
  intros Hk h. specialize (Hk h). unfold bind, isOnWorkerThread.
  destruct (k _ t h); exact Hk.
Qed.

Lemma fails_only_more {A} msgs msgs' t (m : M A) :
  (forall msg, In msg msgs -> In msg msgs') -> fails_only msgs t m -> fails_only msgs' t m.
Proof. intros Hin Hm h. specialize (Hm h). destruct (m t h); [exact I|exact (Hin _ Hm)]. Qed.

Ltac in_messages := cbn [In DISPLAY_UPDATE_FAILED]; tauto.

(** One step of a [fails_only] proof, by the shape of the code. *)
Ltac fail_step :=
  lazymatch goal with
  | |- fails_only _ _ (bind isOnWorkerThread _) =>
      apply fails_only_isOnWorkerThread; cbv beta; cbn [Thread_eqb negb]
  | |- fails_only _ _ (bind _ _) => apply fails_only_bind; [|intros ?]
  | |- fails_only _ _ (ret _) => apply fails_only_ret
  | |- fails_only _ _ (gets _) => apply fails_only_gets
  | |- fails_only _ _ (note _) => apply fails_only_note
  | |- fails_only _ _ (panic _) => apply fails_only_panic; in_messages
  | |- fails_only _ _ (Assert _ _) =>
      apply fails_only_Assert; first [left; reflexivity | right; in_messages]
  | |- fails_only ?msgs ?t (call ?c) => apply (fails_only_call msgs t c)
  | |- fails_only _ _ (modify_env _) => apply fails_only_modify_env
  | |- fails_only _ _ (modify _) => apply fails_only_modify
  | |- fails_only _ _ (invokeMethod _ _) => apply fails_only_invokeMethod
  | |- fails_only _ _ (if ?b then _ else _) => destruct b
  | |- fails_only _ _ (match ?x with _ => _ end) => destruct x
  | |- fails_only _ _ ?m => let hd := head_of m in unfold hd
  end.

Ltac fail_auto := repeat fail_step.

Lemma renderDisplay_returns t : fails_only [] t renderDisplay.
Proof. fail_auto. Qed.

Lemma updateDisplayState_fails_only t : fails_only [DISPLAY_UPDATE_FAILED] t updateDisplayState.
Proof. fail_auto. Qed.


(** ** Properties of every event of a run *)

Lemma forallb_map_pair (P : Event -> bool) (t : Thread) (tr : list Event) :
  forallb P tr = true ->
  forallb (fun entry : Thread * Event => P (snd entry)) (map (pair t) tr) = true.
Proof.
  induction tr as [|ev tr IH]; [reflexivity|]. cbn [forallb map snd]. intros H.
  apply andb_prop in H as [-> H]. exact (IH H).
Qed.

Lemma emits_deliver_all (P : Event -> bool) (entries : list (Op * ConnectionType)) :
  (forall op, emits WorkerThread P (run_op op)) ->
  (forall op conn, P (EvDelivered op conn) = true) ->
  emits WorkerThread P (deliver_all entries).
Proof.
  intros Hop Hd. induction entries as [|entry entries IH]; [apply emits_ret|].
  cbn [deliver_all]. apply emits_bind; [|intros _; exact IH].
  unfold deliver. apply emits_bind; [apply Hop|intros _].
  apply emits_bind; [apply emits_note, Hd|intros _].
  destruct (snd entry); [apply emits_ret|apply emits_modify].
Qed.

(** When every piece of code the two threads run emits only events that
    satisfy [P], so does every tick. *)
Lemma step_emits (P : Event -> bool) :
  (forall op t, emits t P (run_op op)) ->
  emits UIThread P executeOnEmulationThread_wait ->
  (forall mu, emits UIThread P (run_mutation mu)) ->
  (forall t, emits t P SaveSettings) ->
  (forall pc, emits WorkerThread P (worker_step pc)) ->
  forall k s,
    forallb (fun entry => P (snd entry)) (history s) = true ->
    forallb (fun entry => P (snd entry)) (history (step k s)) = true.
Proof.
  intros Hop Hwait Hmu Hsave Hworker k s Hs. unfold step.
  destruct (crashed s); [exact Hs|].
  destruct k.
  - destruct (ui_is_running (host s)); [|exact Hs].
    rewrite absorb_history, forallb_app, Hs. apply forallb_map_pair, Hop.
  - destruct (ui_is_polling (host s)); [|exact Hs].
    rewrite absorb_history, forallb_app, Hs. apply forallb_map_pair, Hwait.
  - destruct (ui_is_running (host s)); [|exact Hs].
    rewrite absorb_history, forallb_app, Hs. apply forallb_map_pair, Hmu.
  - exact Hs.
  - destruct (save_timer_due (host s) && processes_events t s); [|exact Hs].
    rewrite absorb_history, forallb_app, Hs. apply forallb_map_pair, Hsave.
  - rewrite absorb_history, forallb_app, Hs. apply forallb_map_pair, Hworker.
Qed.

Lemma run_emits (P : Event -> bool) :
  (forall op t, emits t P (run_op op)) ->
  emits UIThread P executeOnEmulationThread_wait ->
  (forall mu, emits UIThread P (run_mutation mu)) ->
  (forall t, emits t P SaveSettings) ->
  (forall pc, emits WorkerThread P (worker_step pc)) ->
  forall ks s,
    forallb (fun entry => P (snd entry)) (history s) = true ->
    forallb (fun entry => P (snd entry)) (history (run ks s)) = true.
Proof.
  intros Hop Hwait Hmu Hsave Hworker ks.
  induction ks as [|k ks IH]; intros s Hs; [exact Hs|].
  cbn [run fold_left]. apply IH. apply step_emits; assumption.
Qed.

(** ** Display updates *)

(** A request to update the display widget does not ask for fullscreen and
    for rendering to the main window at once. *)
Definition display_request_ok (ev : Event) : bool :=
  match ev with
  | EvCall (Emit_updateDisplayRequested fullscreen render_to_main) =>
      negb (fullscreen && render_to_main)
  | _ => true
  end.

Lemma masked_request_ok (fs rtm : bool) :
  display_request_ok (EvCall (Emit_updateDisplayRequested fs (rtm && negb fs))) = true.
Proof. destruct fs, rtm; reflexivity. Qed.

Ltac request_step :=
  lazymatch goal with
  | |- emits ?t ?P (call (Emit_updateDisplayRequested ?fs ?rtm)) =>
      apply (emits_call t P (Emit_updateDisplayRequested fs rtm)); apply masked_request_ok
  end.

Ltac request_auto := repeat first [code_step | request_step].

Lemma emits_run_op_request op t : emits t display_request_ok (run_op op).
Proof. destruct op; unfold run_op; request_auto. Qed.

Lemma emits_worker_step_request pc : emits WorkerThread display_request_ok (worker_step pc).
Proof.
  destruct pc; unfold worker_step;
    repeat first
      [ apply emits_deliver_all; [intros ?; apply emits_run_op_request|intros ? ?; reflexivity]
      | code_step | request_step ].
Qed.

(** X2 — in every run of the two threads, whatever the collaborators do,
    no [updateDisplayRequested] is ever emitted that asks for fullscreen and
    for rendering to the main window together: [updateDisplayState] masks
    the render-to-main flag with the fullscreen flag. *)
Theorem display_requests_never_fullscreen_in_main
    (e : Env) (file : option Store) (writable : bool) (ks : list Tick) :
  forallb (fun entry => display_request_ok (snd entry))
    (history (run ks (initial_sys e file writable))) = true.
Proof.
  apply run_emits; [| | | | |reflexivity].
  - apply emits_run_op_request.
  - unfold executeOnEmulationThread_wait. request_auto.
  - intros mu. destruct mu; unfold run_mutation; request_auto.
  - intros t. unfold SaveSettings. request_auto.
  - apply emits_worker_step_request.
Qed.

(** [toggleFullscreen] on the worker thread, as a run of the display update
    from the bridge with the flag flipped. *)
Lemma toggleFullscreen_run (h : Host) :
  toggleFullscreen WorkerThread h
  = match updateDisplayState WorkerThread
            (set_m_is_fullscreen (negb (m_is_fullscreen h)) h) with
    | Ok _ h' tr => Ok tt h' tr
    | Panic msg h' tr => Panic msg h' tr
    end.
Proof.
  unfold toggleFullscreen, SetFullscreen.
  cbv beta iota delta [bind isOnWorkerThread Thread_eqb negb gets modify ret].
  destruct (m_is_fullscreen h); cbn [Bool.eqb negb];
    destruct (updateDisplayState WorkerThread _) as [[] h' tr|msg h' tr];
    cbn [app]; rewrite ?app_nil_r; reflexivity.
Qed.

Lemma updateDisplayState_no_display t (h : Host) :
  m_display (env h) = false -> updateDisplayState t h = Ok tt h [].
Proof.
  intros Hd. unfold updateDisplayState. rewrite bind_run. cbn [gets]. rewrite Hd. reflexivity.
Qed.

(** X3 — [toggleFullscreen] on the worker thread flips the fullscreen flag,
    also when the display update stops the process, and writes no other
    member of the bridge than the exclusive-fullscreen flag; without a display
    it only flips the flag; a second toggle brings the flag back. *)
Theorem toggleFullscreen_flips (h : Host) :
  let r := toggleFullscreen WorkerThread h in
  m_is_fullscreen (state_of r) = negb (m_is_fullscreen h)
  /\ bridge_rest (state_of r) = bridge_rest h
  /\ (m_display (env h) = false ->
      r = Ok tt (set_m_is_fullscreen (negb (m_is_fullscreen h)) h) [])
  /\ m_is_fullscreen (state_of (toggleFullscreen WorkerThread (state_of r)))
     = m_is_fullscreen h.
Proof.
  assert (Hflip : forall h0,
             m_is_fullscreen (state_of (toggleFullscreen WorkerThread h0))
             = negb (m_is_fullscreen h0)).
  { intros h0. rewrite toggleFullscreen_run.
    pose proof (keeps_updateDisplayState WorkerThread m_is_fullscreen
                  display_blind_fullscreen
                  (set_m_is_fullscreen (negb (m_is_fullscreen h0)) h0)) as Hk.
    destruct (updateDisplayState WorkerThread _); exact Hk. }
  cbv zeta. split; [apply Hflip|]. split.
  - rewrite toggleFullscreen_run.
    pose proof (keeps_updateDisplayState WorkerThread bridge_rest display_blind_bridge_rest
                  (set_m_is_fullscreen (negb (m_is_fullscreen h)) h)) as Hk.
    destruct (updateDisplayState WorkerThread _); exact Hk.
  - split.
    + intros Hd. rewrite toggleFullscreen_run, updateDisplayState_no_display; [reflexivity|].
      exact Hd.
    + rewrite !Hflip. apply negb_involutive.
Qed.

(** ** Operations on a bridge without a system *)

(** The operations whose body on the worker thread begins with
    [if (System::IsShutdown()) return;] (or the inverse test). *)
Definition needs_system (op : Op) : bool :=
  match op with
  | Op_resetSystem | Op_changeDisc _ | Op_changeDiscFromPlaylist _
  | Op_saveState_file _ _ | Op_saveState_slot _ _ _ => true
  | _ => false
  end.

(** X4 — when [System::IsShutdown()] answers true, the body of
    [resetSystem], [changeDisc], [changeDiscFromPlaylist] and of both
    [saveState] on the worker thread asks that one question and returns:
    nothing is inserted, switched, saved or reset; [resetSystem] alone logs
    an error.  No member of the bridge changes. *)
Theorem operations_without_system_do_nothing (op : Op) (h : Host) :
  needs_system op = true ->
  snd (ext System_IsShutdown (env h)) = true ->
  let r := run_op op WorkerThread h in
  returns r = true
  /\ trace_of r
     = EvCall System_IsShutdown
       :: match op with
          | Op_resetSystem => [EvCall (Log_ErrorPrintf "resetSystem() called without system")]
          | _ => []
          end
  /\ exists e', state_of r = set_env e' h.
Proof.
  intros Hop Hshut. cbv zeta.
  destruct op; try discriminate Hop; unfold run_op;
    cbv beta iota delta
      [resetSystem changeDisc changeDiscFromPlaylist saveState_file saveState_slot
       bind isOnWorkerThread Thread_eqb negb call ret];
    destruct (ext System_IsShutdown (env h)) as [e1 shut]; cbn [snd] in Hshut; subst shut;
    cbn [negb env set_env].
  1: destruct (ext (Log_ErrorPrintf _) e1) as [e2 []].
  all: cbn; repeat split; eexists; reflexivity.
Qed.

(** ** Resuming *)

(** X5 — [resumeSystemFromMostRecentState] with no resume state (the path
    is empty) emits the one error signal and returns, on either thread: it
    posts nothing, loads nothing and does not leave fullscreen.  With a path
    and off the worker thread it posts [loadState] of that path. *)
Theorem resumeSystemFromMostRecentState_cases (t : Thread) (h : Host) :
  let path := snd (ext GetMostRecentResumeSaveStatePath (env h)) in
  let missing := Msg_text "No resume save state found." in
  let r := resumeSystemFromMostRecentState t h in
  (path = EmptyString ->
   r = Ok tt (set_env (ext_seq [GetMostRecentResumeSaveStatePath; Emit_errorReported missing]
                         (env h)) h)
         [EvCall GetMostRecentResumeSaveStatePath; EvCall (Emit_errorReported missing)])
  /\ (path <> EmptyString ->
      t = UIThread ->
      r = Ok tt (set_posted (posted h ++ [(Op_loadState_file path, QueuedConnection)])
                   (set_env (ext_env GetMostRecentResumeSaveStatePath (env h)) h))
            [EvCall GetMostRecentResumeSaveStatePath;
             EvInvoke (Op_loadState_file path) QueuedConnection]).
Proof.
  cbv zeta. unfold resumeSystemFromMostRecentState, ext_env.
  cbv beta iota delta [bind call ext_seq ext_env].
  destruct (ext GetMostRecentResumeSaveStatePath (env h)) as [e1 path]. cbn [snd fst].
  split.
  - intros ->. cbn [String.eqb env set_env].
    destruct (ext (Emit_errorReported _) e1) as [e2 []]. reflexivity.
  - intros Hpath ->. destruct (String.eqb_spec path EmptyString) as [E|_]; [contradiction|].
    reflexivity.
Qed.

(** ** The outcome of the initialisation *)

Lemma setImGuiFont_off_windows msgs t : WIN32 = false -> fails_only msgs t setImGuiFont.
Proof.
  intros HW. unfold setImGuiFont. apply fails_only_bind; [apply fails_only_call|intros language].
  rewrite HW. apply fails_only_ret.
Qed.

(** A timer that has just been created can be started. *)
Lemma poll_timer_setup_returns msgs t :
  fails_only msgs t
    (createBackgroundControllerPollTimer ;; startBackgroundControllerPollTimer ;; ret true).
Proof. intros h. exact I. Qed.

Lemma initializeOnThread_fails_only t :
  fails_only ["Fixme"; DISPLAY_UPDATE_FAILED] t initializeOnThread.
Proof.
  unfold initializeOnThread. repeat first [apply poll_timer_setup_returns | fail_step].
Qed.

Lemma initializeOnThread_off_windows t :
  WIN32 = false -> fails_only [DISPLAY_UPDATE_FAILED] t initializeOnThread.
Proof.
  intros HW. unfold initializeOnThread.
  repeat first
    [apply setImGuiFont_off_windows; exact HW | apply poll_timer_setup_returns | fail_step].
Qed.

(** A part of the code that keeps [f], within an [ensures] proof. *)
Ltac ensures_keeping f H :=
  apply ensures_bind; eapply ensures_weaken;
  [ apply (ensures_keeps _ f); code_auto
  | cbv beta; intros ? ? H ].

(** The poll timer after [initializeOnThread] has returned. *)
Lemma ensures_initializeOnThread_timer (t : Thread) (h : Host) :
  ensures t initializeOnThread h
    (fun result h' =>
       m_background_controller_polling_timer h'
       = (if result then Some true else m_background_controller_polling_timer h)).
Proof.
  remember (m_background_controller_polling_timer h) as timer0 eqn:H0.
  symmetry in H0. unfold initializeOnThread.
  ensures_keeping m_background_controller_polling_timer H1. rewrite H0 in H1.
  ensures_keeping m_background_controller_polling_timer H2. rewrite H1 in H2.
  ensures_keeping m_background_controller_polling_timer H3. rewrite H2 in H3.
  ensures_keeping m_background_controller_polling_timer H4. rewrite H3 in H4.
  ensures_keeping m_background_controller_polling_timer H5. rewrite H4 in H5.
  ensures_keeping m_background_controller_polling_timer H6. rewrite H5 in H6.
  ensures_keeping m_background_controller_polling_timer H7. rewrite H6 in H7.
  match goal with |- ensures _ (if negb ?b then _ else _) _ _ => destruct b end;
    cbn [negb]; [|apply ensures_ret; exact H7].
  ensures_keeping m_background_controller_polling_timer H8.
  unfold createBackgroundControllerPollTimer, startBackgroundControllerPollTimer.
  apply ensures_bind, ensures_modify, ensures_bind, ensures_bind, ensures_gets.
  cbn. reflexivity.
Qed.

(** X6 — [initializeOnThread] returns true only with the background
    controller poll timer created and started; when it returns false
    ([CommonHostInterface::Initialize] failed) the timer is as it was.  It can
    stop the process in two ways only: in [setImGuiFont], which ends in
    [Panic("Fixme")] when the file is compiled for Windows and the language
    is ja or zh-cn, or in a display update (the report of a settings
    version mismatch leaves and enters fullscreen). *)
Theorem initializeOnThread_outcome (t : Thread) (h : Host) :
  match initializeOnThread t h with
  | Ok result h' _ =>
      m_background_controller_polling_timer h'
      = (if result then Some true else m_background_controller_polling_timer h)
  | Panic msg _ _ =>
      (msg = "Fixme" /\ WIN32 = true) \/ msg = DISPLAY_UPDATE_FAILED
  end.
Proof.
  pose proof (ensures_initializeOnThread_timer t h) as Hens.
  unfold ensures in Hens.
  pose proof (initializeOnThread_fails_only t h) as Hfail.
  destruct (initializeOnThread t h) as [result h' tr|msg h' tr] eqn:Hrun; [exact Hens|].
  destruct WIN32 eqn:HW.
  - cbn [In] in Hfail. destruct Hfail as [<-|[<-|[]]]; auto.
  - pose proof (initializeOnThread_off_windows t HW h) as Hoff. rewrite Hrun in Hoff.
    cbn [In] in Hoff. destruct Hoff as [<-|[]]. auto.
Qed.

(** ** Stopping the worker thread *)

Lemma step_worker_Ok (s : Sys) pc' h' tr :
  crashed s = None ->
  worker_step (worker_pc s) WorkerThread (host s) = Ok pc' h' tr ->
  step TWorker s
  = {| host := h'; worker_pc := pc';
       history := history s ++ map (pair WorkerThread) tr; crashed := None |}.
Proof. intros Hc Hrun. unfold step. rewrite Hc, Hrun. reflexivity. Qed.

(** The event loop of the worker delivers [doStopThread]. *)
Lemma deliver_doStopThread (h : Host) :
  posted h = [(Op_doStopThread, QueuedConnection)] ->
  processEvents_AllEvents WorkerThread h
  = Ok tt (set_env (set_event_loop_exit true (env h))
             (set_m_shutdown_flag true (set_posted [] h)))
      [EvDelivered Op_doStopThread QueuedConnection].
Proof.
  intros Hp. unfold processEvents_AllEvents. cbv beta iota delta [bind gets].
  rewrite Hp. reflexivity.
Qed.

Lemma worker_step_stop (pc : WorkerPC) (h : Host) :
  posted h = [(Op_doStopThread, QueuedConnection)] ->
  pc = InExec \/ pc = AtProcessEvents ->
  exists e',
    worker_step pc WorkerThread h
    = Ok AtLoopHead (set_env e' (set_m_shutdown_flag true (set_posted [] h)))
        (EvDelivered Op_doStopThread QueuedConnection
         :: match pc with AtProcessEvents => [EvCall PollAndUpdate] | _ => [] end).
Proof.
  intros Hp [-> | ->]; unfold worker_step;
    rewrite (bind_Ok_run _ _ _ _ _ _ _ (deliver_doStopThread h Hp)); cbv beta.
  - eexists. reflexivity.
  - rewrite bind_run, call_run. eexists. reflexivity.
Qed.

(** The loop head with the shutdown flag set and no save pending. *)
Lemma teardown_without_save (h : Host) :
  m_shutdown_flag h = true ->
  s_settings_save_timer h = None ->
  exists e',
    worker_step AtLoopHead WorkerThread h
    = Ok ThreadFinished
        (release_thread_waiter
           (set_env e' (set_m_background_controller_polling_timer None h)))
        [EvCall CommonHostInterface_Shutdown; EvCall moveToThread_original_thread].
Proof.
  intros Hsd Ht. unfold worker_step. rewrite bind_run. cbn [gets]. rewrite Hsd.
  unfold threadEntryPoint_exit, shutdownOnThread, destroyBackgroundControllerPollTimer.
  cbv beta iota delta [bind modify gets ret].
  rewrite call_run. cbn [s_settings_save_timer set_env set_m_background_controller_polling_timer].
  rewrite Ht, call_run. eexists. reflexivity.
Qed.

(** X7 — [stopThread] with the worker in [exec()] or about to process its
    events, nothing posted and no settings save pending: the UI thread posts
    [doStopThread] and waits for the thread, doing nothing else meanwhile;
    the worker's next piece delivers the call, which sets the shutdown flag
    and leaves [exec()]; the piece after that sees the flag at the loop head,
    shuts down (the poll timer is destroyed, [CommonHostInterface::Shutdown]
    is called), moves the bridge back to its original thread and ends, which
    releases the UI thread. *)
Theorem stopThread_ends_worker (s : Sys) :
  crashed s = None ->
  ui_wait (host s) = UIRunning ->
  posted (host s) = [] ->
  s_settings_save_timer (host s) = None ->
  worker_pc s = InExec \/ worker_pc s = AtProcessEvents ->
  let s1 := step (TUI Op_stopThread) s in
  let s3 := run [TUI Op_stopThread; TWorker; TWorker] s in
  (ui_wait (host s1) = UIWaitThread
   /\ forall op mu,
        step (TUI op) s1 = s1 /\ step (TMutate mu) s1 = s1 /\ step TUIPoll s1 = s1)
  /\ crashed s3 = None
  /\ worker_pc s3 = ThreadFinished
  /\ ui_wait (host s3) = UIRunning
  /\ m_shutdown_flag (host s3) = true
  /\ m_background_controller_polling_timer (host s3) = None
  /\ posted (host s3) = []
  /\ history s3
     = history s
       ++ [(UIThread, EvInvoke Op_doStopThread QueuedConnection);
           (WorkerThread, EvDelivered Op_doStopThread QueuedConnection)]
       ++ match worker_pc s with
          | AtProcessEvents => [(WorkerThread, EvCall PollAndUpdate)]
          | _ => []
          end
       ++ [(WorkerThread, EvCall CommonHostInterface_Shutdown);
           (WorkerThread, EvCall moveToThread_original_thread)].
Proof.
  intros Hc Hui Hp Ht Hpc s1 s3.
  assert (Hrunning : ui_is_running (host s) = true) by (unfold ui_is_running; rewrite Hui; reflexivity).
  set (h1 := set_ui_wait UIWaitThread
               (set_posted [(Op_doStopThread, QueuedConnection)] (host s))).
  assert (E1 : s1 = {| host := h1; worker_pc := worker_pc s;
                       history := history s
                                  ++ [(UIThread, EvInvoke Op_doStopThread QueuedConnection)];
                       crashed := None |}).
  { subst s1 h1. unfold step. rewrite Hc, Hrunning.
    cbv beta iota delta [run_op stopThread bind isOnWorkerThread Thread_eqb negb Assert ret
                         invokeMethod modify absorb].
    rewrite Hp. reflexivity. }
  split.
  { rewrite E1. split; [reflexivity|]. intros op mu. repeat split. }
  destruct (worker_step_stop (worker_pc s) h1 eq_refl Hpc) as [e2 E2].
  set (h2 := set_env e2 (set_m_shutdown_flag true (set_posted [] h1))) in *.
  destruct (teardown_without_save h2 eq_refl Ht) as [e3 E3].
  subst s3. change (run [TUI Op_stopThread; TWorker; TWorker] s)
    with (step TWorker (step TWorker s1)).
  rewrite E1.
  rewrite (step_worker_Ok {| host := h1; worker_pc := worker_pc s;
                             history := history s
                                        ++ [(UIThread, EvInvoke Op_doStopThread QueuedConnection)];
                             crashed := None |} _ _ _ eq_refl E2).
  match goal with
  | |- context [step TWorker ?s2] => rewrite (step_worker_Ok s2 _ _ _ eq_refl E3)
  end.
  cbn [crashed host worker_pc history map].
  rewrite <- !app_assoc. cbn [app].
  repeat split.
  destruct Hpc as [-> | ->]; reflexivity.
Qed.

(** ** The completion event *)



(** ** Deferred callbacks *)

(** X9 — [RunLater] never runs its function at once: on either thread,
    the worker thread included, it posts [executeOnEmulationThread] without
    waiting, and the function runs once when the worker's event loop delivers
    that call, without signalling the completion event.  A direct
    [executeOnEmulationThread] on the worker thread runs the function at
    once. *)
Theorem RunLater_defers (func : Callback) (t : Thread) (h : Host) :
  let later := Op_executeOnEmulationThread func false in
  let r := run_op (Op_RunLater func) t h in
  r = Ok tt (set_posted (posted h ++ [(later, QueuedConnection)]) h)
        [EvInvoke later QueuedConnection]
  /\ (posted h = [] ->
      processEvents_AllEvents WorkerThread (state_of r)
      = Ok tt (set_env (ext_env (RunCallback func) (env h)) (set_posted [] h))
          [EvCall (RunCallback func); EvDelivered later QueuedConnection])
  /\ executeOnEmulationThread func false WorkerThread h
     = Ok tt (set_env (ext_env (RunCallback func) (env h)) h) [EvCall (RunCallback func)].
Proof.
  cbv zeta. split; [reflexivity|]. split.
  - intros Hp. cbn [run_op RunLater invokeMethod state_of]. rewrite Hp.
    unfold processEvents_AllEvents, deliver_all, deliver, ext_env. run_eval.
    destruct (ext (RunCallback func) (env h)) as [e' []]. reflexivity.
  - unfold executeOnEmulationThread.
    cbv beta iota delta [bind isOnWorkerThread Thread_eqb ret call ext_env].
    destruct (ext (RunCallback func) (env h)) as [e' []]. reflexivity.
Qed.

(** ** The display window is resized or focused *)

(** What the functions of the display window call besides the calls of
    [Call]: the log line of a resize, [m_display->ResizeRenderWindow], the OSD
    message of a lost exclusive fullscreen (with its translation), and what
    takes a display down.  They act on the collaborators. *)
Inductive DisplayCall :=
| Log_DevPrintf_resized (width height : Z)
| Display_ResizeRenderWindow (width height : Z)
| AddOSDMessage_lost_exclusive_fullscreen
| ImGuiManager_Shutdown
| ReleaseHostDisplayResources
| Display_DestroyRenderDevice
| Emit_destroyDisplayRequested.

Variable ext_display : DisplayCall -> Env -> Env.

Definition call_display (c : DisplayCall) : M unit := modify_env (ext_display c).

Definition onDisplayWindowResized (width height : Z) : M unit :=
  has_display <- gets (fun h => m_display (env h)) ;;
  if negb has_display then ret tt
  else
    call_display (Log_DevPrintf_resized width height) ;;
    call_display (Display_ResizeRenderWindow width height) ;;
    call OnHostDisplayResized ;;
    shut <- call System_IsShutdown ;;
    if negb shut
    then
      exclusive <- gets m_is_exclusive_fullscreen ;;
      display_fullscreen <- (if exclusive then call Display_IsFullscreen else ret true) ;;
      (if exclusive && negb display_fullscreen
       then
         call_display AddOSDMessage_lost_exclusive_fullscreen ;;
         modify (set_m_is_exclusive_fullscreen false) ;;
         modify (set_m_is_fullscreen false) ;;
         modify (set_m_lost_exclusive_fullscreen true)
       else ret tt) ;;
      fsui <- call FullscreenUI_IsInitialized ;;
      if negb fsui then renderDisplay else ret tt
    else ret tt.

Definition onDisplayWindowFocused : M unit :=
  has_display <- gets (fun h => m_display (env h)) ;;
  lost <- gets m_lost_exclusive_fullscreen ;;
  if negb has_display || negb lost then ret tt
  else
    modify (set_m_lost_exclusive_fullscreen false) ;;
    modify (set_m_is_exclusive_fullscreen true) ;;
    modify (set_m_is_fullscreen true) ;;
    updateDisplayState.


(** The members no window event writes. *)
Definition window_rest (h : Host) :=
  (m_is_rendering_to_main h, m_shutdown_flag h, m_worker_thread_sync_execute_done h,
   m_background_controller_polling_timer h, s_base_settings_interface h,
   s_settings_save_timer h, settings_file h, settings_file_writable h, now h).





Lemma display_blind_lost : display_blind m_lost_exclusive_fullscreen.
Proof. repeat split. Qed.

Lemma display_blind_window_rest : display_blind window_rest.
Proof. repeat split. Qed.

(** X11 — [onDisplayWindowFocused] does nothing unless there is a display
    and exclusive fullscreen was lost.  Then it clears the record of the
    loss, sets fullscreen again and asks for a display update that requests
    fullscreen (never rendering to the main window); the flag and the record
    are so also when that update stops the process. *)
Theorem onDisplayWindowFocused_restores (t : Thread) (h : Host) :
  let r := onDisplayWindowFocused t h in
  (m_display (env h) = false \/ m_lost_exclusive_fullscreen h = false -> r = Ok tt h [])
  /\ (m_display (env h) = true ->
      m_lost_exclusive_fullscreen h = true ->
      m_is_fullscreen (state_of r) = true
      /\ m_lost_exclusive_fullscreen (state_of r) = false
      /\ window_rest (state_of r) = window_rest h
      /\ exists rest,
           trace_of r
           = EvCall Display_DoneRenderContextCurrent
             :: EvCall (Emit_updateDisplayRequested true false) :: rest).
Proof.
  cbv zeta. unfold onDisplayWindowFocused. cbv beta iota delta [bind gets modify]. split.
  - intros [-> | ->]; rewrite ?orb_true_r; reflexivity.
  - intros Hd Hl. rewrite Hd, Hl. cbn [negb orb].
    set (h3 := set_m_is_fullscreen true
                 (set_m_is_exclusive_fullscreen true
                    (set_m_lost_exclusive_fullscreen false h))).
    assert (Hrun : forall A (r : Res A),
               match r with
               | Ok b h2 tr2 => Ok b h2 ([] ++ tr2)
               | Panic msg h2 tr2 => Panic msg h2 ([] ++ tr2)
               end = r) by (intros A []; reflexivity).
    rewrite !Hrun.
    split; [|split; [|split]].
    + apply (keeps_updateDisplayState t m_is_fullscreen display_blind_fullscreen h3).
    + apply (keeps_updateDisplayState t m_lost_exclusive_fullscreen display_blind_lost h3).
    + apply (keeps_updateDisplayState t window_rest display_blind_window_rest h3).
    + unfold updateDisplayState.
      run_pure. subst h3. cbn [env set_m_is_fullscreen set_m_is_exclusive_fullscreen
                              set_m_lost_exclusive_fullscreen]. rewrite Hd. cbn [negb].
      run_call. run_pure. run_pure.
      cbn [m_is_fullscreen m_is_rendering_to_main set_env set_m_is_fullscreen
           set_m_is_exclusive_fullscreen set_m_lost_exclusive_fullscreen negb].
      rewrite andb_false_r. run_call.
      rewrite !trace_of_prepend. cbn [app]. eexists. reflexivity.
Qed.

(** ** Settings applied to a fullscreen bridge *)



(** ** The default settings of the Qt frontend *)

(** The values [SetDefaultSettings(SettingsInterface&)] writes itself. *)
Definition qt_default (key : string * string) : option Value :=
  if decide (("Main", "RenderToMainWindow") = key) then Some (VBool true)
  else if decide (("Hotkeys", "SelectNextSaveStateSlot") = key)
  then Some (VString "Keyboard/F4")
  else if decide (("Hotkeys", "SelectPreviousSaveStateSlot") = key)
  then Some (VString "Keyboard/F3")
  else if decide (("Hotkeys", "SaveSelectedSaveState") = key)
  then Some (VString "Keyboard/F2")
  else if decide (("Hotkeys", "LoadSelectedSaveState") = key)
  then Some (VString "Keyboard/F1")
  else if decide (("Hotkeys", "PowerOff") = key) then Some (VString "Keyboard/Escape")
  else None.

(** X13 — [SetDefaultSettings(si)] leaves the five hotkeys and
    RenderToMainWindow at the values of the Qt frontend whatever
    [CommonHostInterface::SetDefaultSettings(si)] wrote for them, and every
    other key as that function left it; so the store after the reset of a
    settings version mismatch has these six values. *)
Theorem SetDefaultSettings_si_keys (si : Store) (key : string * string) :
  SetDefaultSettings_si si !! key
  = match qt_default key with
    | Some value => Some value
    | None => CommonHostInterface_SetDefaultSettings_si si !! key
    end
  /\ (forall value, qt_default key = Some value -> reset_settings !! key = Some value).
Proof.
  assert (H : forall si0, SetDefaultSettings_si si0 !! key
                          = match qt_default key with
                            | Some value => Some value
                            | None => CommonHostInterface_SetDefaultSettings_si si0 !! key
                            end).
  { intros si0. unfold SetDefaultSettings_si, qt_default, INI_SetBoolValue, INI_SetStringValue.
    cbv zeta. rewrite !lookup_insert.
    repeat (destruct (decide _); [reflexivity|]). reflexivity. }
  split; [apply H|].
  intros value Hv. unfold reset_settings. rewrite H, Hv. reflexivity.
Qed.

(** ** The loop head without a running system *)



(** ** The start of the worker thread *)

Lemma keeps_initializeOnThread_ui_wait :
  keeps WorkerThread ui_wait initializeOnThread.
Proof. unfold initializeOnThread. code_auto. Qed.

(** X15 — the first piece of the worker thread runs
    [initializeOnThread], hands the result to [setInitResult], which ends the
    wait of the UI thread in [waitForInit], and stands at the loop head:
    whatever the result, also when the initialisation failed, the thread goes
    on into its loop.  The poll timer is active exactly when the result is
    true. *)
Theorem worker_start_releases_ui (e : Env) (file : option Store) (writable : bool) :
  let s0 := initial_sys e file writable in
  let s1 := step TWorker s0 in
  ui_wait (host s0) = UIWaitInit
  /\ (crashed s1 = None ->
      ui_wait (host s1) = UIRunning
      /\ worker_pc s1 = AtLoopHead
      /\ exists result before,
           history s1 = before ++ [(WorkerThread, EvCall (Thread_setInitResult result))]
           /\ m_background_controller_polling_timer (host s1)
              = (if result then Some true else None)).
Proof.
  cbv zeta. split; [reflexivity|].
  unfold step. cbn [crashed initial_sys host worker_pc worker_step].
  pose proof (ensures_initializeOnThread_timer WorkerThread (initial_host e file writable))
    as Hout.
  unfold ensures in Hout.
  pose proof (keeps_initializeOnThread_ui_wait (initial_host e file writable)) as Hwait.
  rewrite bind_run.
  destruct (initializeOnThread WorkerThread (initial_host e file writable))
    as [result h1 tr1|msg h1 tr1]; [|intros H; discriminate H].
  cbn [state_of] in Hwait. cbn [m_background_controller_polling_timer initial_host] in Hout.
  rewrite bind_run, call_run. cbv beta iota delta [bind modify ret].
  cbn [absorb crashed host worker_pc history]. intros _.
  unfold release_init_waiter. cbn [ui_wait set_env]. rewrite Hwait.
  cbn [ui_wait initial_host set_ui_wait set_env m_background_controller_polling_timer].
  split; [reflexivity|]. split; [reflexivity|].
  exists result, (map (pair WorkerThread) tr1).
  split; [|exact Hout].
  cbn [history initial_sys app]. rewrite map_app. reflexivity.
Qed.

(** ** Resetting the settings *)




(** ** Acquiring and releasing the display *)

(** The questions [AcquireHostDisplay] asks besides the calls of [Call];
    [createDisplayRequested] is answered by the UI thread, which creates the
    display object ([createHostDisplay]) on the way. *)
Inductive DisplayQuery :=
| Emit_createDisplayRequested (fullscreen render_to_main : bool)
| Display_HasRenderDevice
| Display_InitializeRenderDevice
| ImGuiManager_Initialize
| CreateHostDisplayResources.

Variable ext_query : DisplayQuery -> Env -> Env * bool.

Definition query (q : DisplayQuery) : M bool :=
  fun _ h => let (e', r) := ext_query q (env h) in Ok r (set_env e' h) [].

Definition AcquireHostDisplay : M bool :=
  has_display <- gets (fun h => m_display (env h)) ;;
  Assert (negb has_display) "!m_display" ;;
  render_to_main <- call (Host_GetBaseBoolSettingValue "Main" "RenderToMainWindow" true) ;;
  modify (set_m_is_rendering_to_main render_to_main) ;;
  fs <- gets m_is_fullscreen ;;
  display_widget <- query (Emit_createDisplayRequested fs render_to_main) ;;
  has_device <- (if display_widget then query Display_HasRenderDevice else ret false) ;;
  if negb display_widget || negb has_device
  then
    call_display Emit_destroyDisplayRequested ;;
    modify_env (set_m_display false) ;;
    ret false
  else
    current <- call Display_MakeRenderContextCurrent ;;
    initialized <- (if current then query Display_InitializeRenderDevice else ret false) ;;
    imgui <- (if initialized then query ImGuiManager_Initialize else ret false) ;;
    resources <- (if imgui then query CreateHostDisplayResources else ret false) ;;
    if negb current || negb initialized || negb imgui || negb resources
    then
      call_display ImGuiManager_Shutdown ;;
      call_display ReleaseHostDisplayResources ;;
      call_display Display_DestroyRenderDevice ;;
      call_display Emit_destroyDisplayRequested ;;
      modify_env (set_m_display false) ;;
      ret false
    else
      exclusive <- call Display_IsFullscreen ;;
      modify (set_m_is_exclusive_fullscreen exclusive) ;;
      ret true.

Definition ReleaseHostDisplay : M unit :=
  has_display <- gets (fun h => m_display (env h)) ;;
  Assert has_display "m_display" ;;
  call_display ReleaseHostDisplayResources ;;
  call_display ImGuiManager_Shutdown ;;
  call_display Display_DestroyRenderDevice ;;
  call_display Emit_destroyDisplayRequested ;;
  modify_env (set_m_display false) ;;
  modify (set_m_is_fullscreen false).

(** The members neither function writes. *)
Definition acquire_rest (h : Host) :=
  (m_lost_exclusive_fullscreen h, m_shutdown_flag h, m_worker_thread_sync_execute_done h,
   m_background_controller_polling_timer h, s_base_settings_interface h,
   s_settings_save_timer h, settings_file h, settings_file_writable h, posted h,
   ui_wait h, now h).

Lemma keeps_query {D} t (f : Host -> D) (q : DisplayQuery) :
  (forall e h, f (set_env e h) = f h) -> keeps t f (query q).
Proof. intros He h. unfold query. destruct (ext_query q (env h)). apply He. Qed.

Ltac query_step :=
  lazymatch goal with
  | |- keeps ?t ?f (query ?q) => apply (keeps_query t f q); side_condition
  end.

Lemma keeps_AcquireHostDisplay t :
  keeps t (fun h => (m_is_fullscreen h, acquire_rest h)) AcquireHostDisplay.
Proof.
  unfold AcquireHostDisplay, call_display. repeat first [query_step | code_step].
Qed.

(** Evaluate a run as far as the collaborators allow. *)
Ltac acquire_eval :=
  cbv beta iota delta [bind gets modify modify_env call query call_display ret Assert panic];
  repeat first
    [ match goal with
      | |- context [ext_query ?q ?e] =>
          lazymatch e with
          | context [ext _ _] => fail
          | context [ext_query _ _] => fail
          | _ => let e' := fresh "e" in let r := fresh "r" in
                 destruct (ext_query q e) as [e' r]; simpl
          end
      end
    | run_step ].

(** X17 — [AcquireHostDisplay] on a bridge that has a display stops in its
    assertion, before it has done anything.  Otherwise it returns: false
    when the widget or the render device is missing or when one of the four
    steps of the set-up fails, and then no display is left behind and the
    exclusive-fullscreen flag is as before; true only after the render
    context was made current and the display was asked whether it is
    fullscreen.  It never writes the fullscreen flag. *)
Theorem AcquireHostDisplay_outcome (t : Thread) (h : Host) :
  let r := AcquireHostDisplay t h in
  (m_display (env h) = true -> r = Panic "!m_display" h [])
  /\ (m_display (env h) = false -> returns r = true)
  /\ (m_is_fullscreen (state_of r), acquire_rest (state_of r))
     = (m_is_fullscreen h, acquire_rest h)
  /\ match r with
     | Ok false h' _ =>
         m_display (env h') = false
         /\ m_is_exclusive_fullscreen h' = m_is_exclusive_fullscreen h
     | Ok true _ tr =>
         exists before,
           tr = before ++ [EvCall Display_MakeRenderContextCurrent; EvCall Display_IsFullscreen]
     | Panic _ _ _ => True
     end.
Proof.
  cbv zeta. split; [|split; [|split]].
  - intros Hd. unfold AcquireHostDisplay. rewrite bind_run. cbn [gets]. rewrite Hd.
    reflexivity.
  - intros Hd. unfold AcquireHostDisplay. rewrite bind_run. cbn [gets]. rewrite Hd.
    cbn [negb Assert]. acquire_eval; reflexivity.
  - apply keeps_AcquireHostDisplay.
  - unfold AcquireHostDisplay. acquire_eval; auto.
    eexists [_]. reflexivity.
Qed.

Lemma keeps_ReleaseHostDisplay t :
  keeps t (fun h => (m_is_exclusive_fullscreen h, m_is_rendering_to_main h, acquire_rest h))
    ReleaseHostDisplay.
Proof. unfold ReleaseHostDisplay, call_display. code_auto. Qed.

(** [ReleaseHostDisplay] on a bridge with a display. *)
Lemma ReleaseHostDisplay_run (t : Thread) (h : Host) :
  m_display (env h) = true ->
  exists e',
    m_display e' = false
    /\ ReleaseHostDisplay t h = Ok tt (set_m_is_fullscreen false (set_env e' h)) [].
Proof.
  intros Hd. unfold ReleaseHostDisplay, call_display.
  cbv beta iota delta [bind gets modify modify_env ret Assert]. rewrite Hd.
  eexists. split; [|reflexivity]. reflexivity.
Qed.

(** X18 — [ReleaseHostDisplay] without a display stops in its assertion.
    With one it returns, and then there is no display and the bridge is not
    fullscreen, while the other members, the exclusive-fullscreen flag and
    the record of a lost exclusive fullscreen among them, are as before.  A
    resize, a focus event, a display update or a redraw that arrives after
    it does nothing. *)
Theorem ReleaseHostDisplay_effect (t : Thread) (h : Host) :
  let r := ReleaseHostDisplay t h in
  (m_display (env h) = false -> r = Panic "m_display" h [])
  /\ (m_display (env h) = true ->
      returns r = true
      /\ m_display (env (state_of r)) = false
      /\ m_is_fullscreen (state_of r) = false
      /\ (m_is_exclusive_fullscreen (state_of r), m_is_rendering_to_main (state_of r),
          acquire_rest (state_of r))
         = (m_is_exclusive_fullscreen h, m_is_rendering_to_main h, acquire_rest h)
      /\ (forall width height,
            onDisplayWindowResized width height WorkerThread (state_of r)
            = Ok tt (state_of r) [])
      /\ onDisplayWindowFocused WorkerThread (state_of r) = Ok tt (state_of r) []
      /\ updateDisplayState WorkerThread (state_of r) = Ok tt (state_of r) []
      /\ redrawDisplayWindow WorkerThread (state_of r) = Ok tt (state_of r) []).
Proof.
  cbv zeta. split.
  - intros Hd. unfold ReleaseHostDisplay. rewrite bind_run. cbn [gets]. rewrite Hd.
    reflexivity.
  - intros Hd. pose proof (keeps_ReleaseHostDisplay t h) as Hk.
    destruct (ReleaseHostDisplay_run t h Hd) as (e' & He' & Hrun).
    rewrite Hrun in *. cbn [state_of returns] in *.
    assert (Hno : m_display (env (set_m_is_fullscreen false (set_env e' h))) = false)
      by exact He'.
    split; [reflexivity|]. split; [exact Hno|]. split; [reflexivity|].
    split; [exact Hk|].
    split; [|split; [|split]].
    + intros width height. unfold onDisplayWindowResized. rewrite bind_run. cbn [gets].
      rewrite Hno. reflexivity.
    + unfold onDisplayWindowFocused. cbv beta iota delta [bind gets]. rewrite Hno.
      reflexivity.
    + apply updateDisplayState_no_display. exact Hno.
    + unfold redrawDisplayWindow.
      cbv beta iota delta [bind isOnWorkerThread Thread_eqb negb gets].
      rewrite Hno. reflexivity.
Qed.

(** ** Delivered calls *)


End Bridge.

Arguments Ok {C A} a h tr.
Arguments Panic {C A} msg h tr.

(** * The bridge against a small core *)

(** Modelled from the spec: the states of the emulated system, which the
    core keeps and which is not under src/ (the spec: no system, "Active"
    while the system runs, paused). *)
Inductive SystemState := SystemShutdown | SystemRunning | SystemPaused.

(** Modelled from the spec: the core's state as far as the bridge depends on
    it, with the mark [System::CancelPendingStartup] leaves. *)
Record System := {
  system_state : SystemState;
  startup_cancelled : bool
}.

Definition system_is (st : SystemState) (sys : System) : bool :=
  match system_state sys, st with
  | SystemShutdown, SystemShutdown | SystemRunning, SystemRunning
  | SystemPaused, SystemPaused => true
  | _, _ => false
  end.

(** An answer of the type the call returns. *)
Definition answer (c : Call) (b : bool) : denote (ret_ty c) :=
  match ret_ty c as ty return denote ty with
  | TUnit => tt
  | TBool => b
  | TString => EmptyString
  end.

Definition set_core {C} (v : C) (e : @Env C) : @Env C :=
  {| m_display := m_display e; m_display_all_frames := m_display_all_frames e;
     m_frame_step_request := m_frame_step_request e;
     m_throttler_enabled := m_throttler_enabled e; m_audio_stream := m_audio_stream e;
     audio_output_volume := audio_output_volume e;
     audio_fast_forward_volume := audio_fast_forward_volume e;
     audio_output_muted := audio_output_muted e; event_loop_exit := event_loop_exit e;
     core := v |}.

(** Modelled from the spec: what the core, which is not under src/, answers
    to the calls that return a flag; a [BootSystem] whose startup was
    cancelled fails. *)
Definition system_answer (c : Call) (sys : System) : bool :=
  match c with
  | System_IsRunning => system_is SystemRunning sys
  | System_IsShutdown => system_is SystemShutdown sys
  | System_IsValid => negb (system_is SystemShutdown sys)
  | CommonHostInterface_Initialize => true
  | BootSystem _ => negb (startup_cancelled sys)
  | _ => false
  end.

(** Modelled from the spec: how the calls change the core, which is not
    under src/: "power off ... cancels any pending startup first", and the
    cancelled boot leaves the system as it was. *)
Definition system_after (c : Call) (sys : System) : System :=
  match c with
  | System_CancelPendingStartup =>
      {| system_state := system_state sys; startup_cancelled := true |}
  | BootSystem _ =>
      if startup_cancelled sys
      then {| system_state := system_state sys; startup_cancelled := false |}
      else {| system_state := SystemRunning; startup_cancelled := false |}
  | PowerOffSystem _ => {| system_state := SystemShutdown; startup_cancelled := false |}
  | CommonHostInterface_PauseSystem paused =>
      if system_is SystemShutdown sys then sys
      else {| system_state := if paused then SystemPaused else SystemRunning;
              startup_cancelled := startup_cancelled sys |}
  | _ => sys
  end.

(** Modelled from the spec: the emulation core ([System::CancelPendingStartup],
    [BootSystem], [PowerOffSystem], [System::IsRunning] and the rest of
    [System::] and [CommonHostInterface::]) is not under src/.  The spec:
    power off "cancels any pending startup first"; "power off issued while a
    system boot is still pending must cancel the pending boot rather than race
    it"; the boot is then "cancelled — the system never transitions to
    Active".  So [System::CancelPendingStartup] marks the startup cancelled, a
    [BootSystem] that finds the mark fails and leaves the system as it was,
    any other [BootSystem] makes the system run (and, through
    [OnSystemCreated] and [wakeThread], makes [exec()] return), and
    [PowerOffSystem] shuts the system down. *)
Definition ext_system (c : Call) (e : @Env System) : @Env System * denote (ret_ty c) :=
  let sys := core e in
  let e1 := set_core (system_after c sys) e in
  let e2 := match c with
            | BootSystem _ => if startup_cancelled sys then e1 else set_event_loop_exit true e1
            | CommonHostInterface_PauseSystem false =>
                if system_is SystemShutdown sys then e1 else set_event_loop_exit true e1
            | _ => e1
            end in
  (e2, answer c (system_answer c sys)).

(** The constants the bridge is compiled with, for the runs below. *)
Definition settings_version_0 : Z := 3.

Definition default_settings_0 (si : Store) : Store :=
  INI_SetBoolValue si "Main" "ConfirmPowerOff" true.

Definition step_system : Tick -> Sys -> Sys :=
  step ext_system settings_version_0 default_settings_0 false.

Definition run_system : list Tick -> Sys -> Sys :=
  run ext_system settings_version_0 default_settings_0 false.

Definition env_0 : @Env System :=
  {| m_display := false; m_display_all_frames := false; m_frame_step_request := false;
     m_throttler_enabled := true; m_audio_stream := false;
     audio_output_volume := 100; audio_fast_forward_volume := 100;
     audio_output_muted := false; event_loop_exit := false;
     core := {| system_state := SystemShutdown; startup_cancelled := false |} |}.

(** The program once both threads are up: no settings file on disk. *)
Definition sys_0 : Sys := run_system [TWorker; TWorker] (initial_sys env_0 None true).

(** ** Power-off while a boot is pending *)

(** The power-off operations, with the call each posts off the worker thread. *)
Definition power_off_ops : list (Op * (Op * ConnectionType)) :=
  [(Op_powerOffSystem, (Op_powerOffSystem, QueuedConnection));
   (Op_powerOffSystemWithoutSaving, (Op_powerOffSystemWithoutSaving, QueuedConnection));
   (Op_synchronousPowerOffSystem, (Op_powerOffSystem, BlockingQueuedConnection))].

(** Both threads idle and no system: the worker is parked in [exec()], the
    UI thread is in its event loop, nothing is posted. *)
Definition parked (s : Sys) : Prop :=
  crashed s = None
  /\ worker_pc s = InExec
  /\ ui_wait (host s) = UIRunning
  /\ posted (host s) = []
  /\ event_loop_exit (env (host s)) = false
  /\ core (env (host s)) = {| system_state := SystemShutdown; startup_cancelled := false |}.

(** What the posted power-off does on the worker thread. *)
Definition power_off_body (target : Op) : list Event :=
  match target with
  | Op_powerOffSystem => [EvCall ShouldSaveResumeState; EvCall (PowerOffSystem false)]
  | _ => [EvCall (PowerOffSystem false)]
  end.

Ltac open_sys s :=
  let h := fresh "h" in
  let e := fresh "e" in
  let c := fresh "c" in
  destruct s as [h ? ? ?]; destruct h as [? ? ? ? ? ? ? ? ? ? ? ? ? ? e];
  destruct e as [? ? ? ? ? ? ? ? ? c]; destruct c as [? ?].

Lemma parked_boot_then_power_off (s : Sys) (params : SystemBootParameters)
    (op target : Op) (conn : ConnectionType) :
  In (op, (target, conn)) power_off_ops ->
  parked s ->
  let s1 := step_system (TUI (Op_bootSystem params)) s in
  let s2 := run_system [TUI (Op_bootSystem params); TUI op] s in
  let s3 := step_system TWorker s2 in
  (history s1 = history s ++ [(UIThread, EvInvoke (Op_bootSystem params) QueuedConnection)]
   /\ system_state (core (env (host s1))) = SystemShutdown)
  /\ (crashed s2 = None
   /\ history s2 = history s ++ map (pair UIThread)
                                  [EvInvoke (Op_bootSystem params) QueuedConnection;
                                   EvCall System_CancelPendingStartup;
                                   EvInvoke target conn]
   /\ system_state (core (env (host s2))) = SystemShutdown)
  /\ (crashed s3 = None
      /\ history s3 = history s2 ++ map (pair WorkerThread)
                                      ([EvCall Emit_emulationStarting;
                                        EvCall (BootSystem params);
                                        EvDelivered (Op_bootSystem params) QueuedConnection]
                                       ++ power_off_body target
                                       ++ [EvDelivered target conn])
      /\ system_state (core (env (host s3))) = SystemShutdown
      /\ posted (host s3) = []
      /\ ui_wait (host s3) = UIRunning)
  /\ step_system TWorker s3 = s3.
Proof.
  intros Hin (Hc & Hpc & Hui & Hp & Hq & Hcore) s1 s2 s3. subst s3 s2 s1.
  open_sys s. cbn in Hc, Hpc, Hui, Hp, Hq, Hcore. injection Hcore as -> ->. subst.
  cbn [power_off_ops In] in Hin.
  destruct Hin as [H|[H|[H|[]]]]; injection H as <- <- <-;
    vm_compute; fold (@app (Thread * Event)); rewrite <- ?app_assoc; cbn [app];
    repeat split; reflexivity.
Qed.

Lemma firstn_repeat_min {A} (a : A) (k n : nat) :
  firstn k (repeat a n) = repeat a (Nat.min k n).
Proof.
  revert n. induction k as [|k IH]; intros [|n]; cbn; try reflexivity.
  rewrite IH. reflexivity.
Qed.

Lemma run_workers_fixed (s : Sys) (n : nat) :
  step_system TWorker s = s -> run_system (repeat TWorker n) s = s.
Proof.
  intros Hs. induction n as [|n IH]; [reflexivity|].
  cbn [repeat]. unfold run_system in *. rewrite run_cons.
  fold step_system. rewrite Hs. exact IH.
Qed.

Lemma no_new_steps (hist new : list (Thread * Event)) :
  existsb is_emulation_step (events new) = false ->
  existsb is_emulation_step (events (hist ++ new))
  = existsb is_emulation_step (events hist).
Proof.
  intros H. unfold events in *. rewrite map_app, existsb_app, H. apply orb_false_r.
Qed.

(** The three power-off operations, called off the worker thread, cancel
    the pending startup and then post the power-off, whatever the core is. *)
Lemma power_off_cancels_first {C : Type} (ext : forall c : Call, @Env C -> @Env C * denote (ret_ty c))
    (op target : Op) (conn : ConnectionType) (h : @Host C) :
  In (op, (target, conn)) power_off_ops ->
  exists e',
    run_op ext op UIThread h
    = Ok tt (match conn with
             | QueuedConnection => fun h => h
             | BlockingQueuedConnection => set_ui_wait UIWaitSlot
             end (set_posted (posted h ++ [(target, conn)]) (set_env e' h)))
        [EvCall System_CancelPendingStartup; EvInvoke target conn].
Proof.
  cbn [power_off_ops In].
  intros [H|[H|[H|[]]]]; injection H as <- <- <-;
    cbv beta iota delta [run_op powerOffSystem powerOffSystemWithoutSaving
                         synchronousPowerOffSystem bind isOnWorkerThread Thread_eqb negb
                         call invokeMethod];
    destruct (ext System_CancelPendingStartup (env h)) as [e' []];
    exists e'; reflexivity.
Qed.

(** C5 — a power-off operation called off the worker thread cancels the
    pending startup and only then posts the power-off (for every core).
    Against the core above, with both threads idle and no system: when the UI
    thread asks for a boot and, before the worker has run it, for a power-off,
    the worker's next piece runs the boot, which fails ([BootSystem] is not
    followed by the frame a successful boot renders), and then the power-off;
    at no point of the run is the system running, and the emulation makes no
    step. *)
Theorem power_off_cancels_pending_boot
    (s : Sys) (params : SystemBootParameters) (op target : Op) (conn : ConnectionType)
    (n : nat) :
  In (op, (target, conn)) power_off_ops ->
  parked s ->
  let ks := TUI (Op_bootSystem params) :: TUI op :: repeat TWorker n in
  let s' := run_system ks s in
  (forall h, trace_of (run_op ext_system op UIThread h)
             = [EvCall System_CancelPendingStartup; EvInvoke target conn])
  /\ (forall k,
        let sk := run_system (firstn k ks) s in
        system_state (core (env (host sk))) = SystemShutdown
        /\ existsb is_emulation_step (events (history sk))
           = existsb is_emulation_step (events (history s)))
  /\ (1 <= n ->
      history s'
      = history s
        ++ map (pair UIThread)
             [EvInvoke (Op_bootSystem params) QueuedConnection;
              EvCall System_CancelPendingStartup;
              EvInvoke target conn]
        ++ map (pair WorkerThread)
             ([EvCall Emit_emulationStarting;
               EvCall (BootSystem params);
               EvDelivered (Op_bootSystem params) QueuedConnection]
              ++ power_off_body target
              ++ [EvDelivered target conn])
      /\ posted (host s') = []
      /\ ui_wait (host s') = UIRunning)
  /\ crashed s' = None.
Proof.
  intros Hin Hparked ks s'.
  destruct (parked_boot_then_power_off s params op target conn Hin Hparked)
    as ((Hh1 & Hs1) & (Hc2 & Hh2 & Hs2) & (Hc3 & Hh3 & Hs3 & Hp3 & Hui3) & Hfix).
  set (s1 := step_system (TUI (Op_bootSystem params)) s) in *.
  set (s2 := run_system [TUI (Op_bootSystem params); TUI op] s) in *.
  set (s3 := step_system TWorker s2) in *.
  assert (Hrun : forall m, run_system (TUI (Op_bootSystem params) :: TUI op :: repeat TWorker m) s
                           = match m with 0 => s2 | S _ => s3 end).
  { intros [|m]; [reflexivity|].
    change (run_system (repeat TWorker m) s3 = s3). apply run_workers_fixed, Hfix. }
  assert (Hbody : existsb is_emulation_step
                    (events (map (pair WorkerThread)
                               ([EvCall Emit_emulationStarting; EvCall (BootSystem params);
                                 EvDelivered (Op_bootSystem params) QueuedConnection]
                                ++ power_off_body target ++ [EvDelivered target conn])))
                  = false).
  { cbn [power_off_ops In] in Hin.
    destruct Hin as [H|[H|[H|[]]]]; injection H as <- <- <-; reflexivity. }
  assert (Hsteps2 : existsb is_emulation_step (events (history s2))
                    = existsb is_emulation_step (events (history s))).
  { rewrite Hh2. apply no_new_steps. reflexivity. }
  assert (Hsteps3 : existsb is_emulation_step (events (history s3))
                    = existsb is_emulation_step (events (history s))).
  { rewrite Hh3, no_new_steps by exact Hbody. exact Hsteps2. }
  split.
  { intros h. destruct (power_off_cancels_first ext_system op target conn h Hin) as [e' ->].
    reflexivity. }
  split.
  { intros [|[|k]]; cbv zeta; subst ks; cbn [firstn].
    - change (run_system [] s) with s. split; [|reflexivity].
      destruct Hparked as (_ & _ & _ & _ & _ & ->). reflexivity.
    - change (run_system [TUI (Op_bootSystem params)] s) with s1.
      split; [exact Hs1|]. rewrite Hh1. apply no_new_steps. reflexivity.
    - rewrite firstn_repeat_min, Hrun.
      destruct (Nat.min k n); split; assumption. }
  subst s'. subst ks. rewrite Hrun.
  split.
  { intros Hn. destruct n as [|n]; [lia|].
    rewrite Hh3, Hh2, <- app_assoc. repeat split; assumption. }
  destruct n; assumption.
Qed.

(** ** Runs on the small core *)









(** A boot that nothing cancels makes the system run, and the emulation
    steps. *)
Example boot_alone_runs :
  let s := run_system [TUI (Op_bootSystem 7); TWorker; TWorker] sys_0 in
  system_state (core (env (host s))) = SystemRunning
  /\ existsb is_emulation_step (events (history s)) = true.
Proof. vm_compute. split; reflexivity. Qed.

(** The stop of the worker thread with a settings save pending: the
    process stops in the assertion of [SaveSettings] and the file does not
    have the new value. *)
Example stop_with_pending_save :
  let s := run_system [TMutate (Mut_SetBool "Main" "StartPaused" true);
                       TUI Op_stopThread; TWorker; TWorker] sys_0 in
  crashed s = Some "Saving should happen on the UI thread."
  /\ s_base_settings_interface (host s) !! ("Main", "StartPaused") = Some (VBool true)
  /\ match settings_file (host s) with
     | Some file => file !! ("Main", "StartPaused")
     | None => None
     end = None
  /\ existsb (fun entry => match snd entry with EvSettingsSave _ => true | _ => false end)
       (skipn (length (history sys_0)) (history s)) = false.
Proof. vm_compute. repeat split; reflexivity. Qed.






(** With no settings file the store is reset at initialization. *)
Lemma initializeOnThread_settings_version_witness :
  m_is_fullscreen (initial_host env_0 None true) = false
  /\ s_base_settings_interface
       (state_of (initializeOnThread ext_system settings_version_0 default_settings_0 false
                    WorkerThread (initial_host env_0 None true)))
     = reset_settings settings_version_0 default_settings_0.
Proof.
  split; [reflexivity|].
  pose proof (initializeOnThread_settings_version ext_system settings_version_0
                default_settings_0 false WorkerThread (initial_host env_0 None true)
                eq_refl) as H.
  cbv zeta in H. destruct H as [Hreset _].
  apply Hreset. vm_compute. discriminate.
Defined.

(** A boot and a synchronous power-off from the idle program. *)
Lemma power_off_cancels_pending_boot_witness :
  In (Op_synchronousPowerOffSystem, (Op_powerOffSystem, BlockingQueuedConnection)) power_off_ops
  /\ parked sys_0
  /\ crashed (run_system (TUI (Op_bootSystem 7) :: TUI Op_synchronousPowerOffSystem
                          :: repeat TWorker 3) sys_0) = None.
Proof.
  assert (Hin : In (Op_synchronousPowerOffSystem, (Op_powerOffSystem, BlockingQueuedConnection))
                  power_off_ops) by (cbn; tauto).
  assert (Hparked : parked sys_0) by (vm_compute; repeat split; reflexivity).
  split; [exact Hin|]. split; [exact Hparked|].
  pose proof (power_off_cancels_pending_boot sys_0 7 Op_synchronousPowerOffSystem
                Op_powerOffSystem BlockingQueuedConnection 3 Hin Hparked) as H.
  cbv zeta in H. destruct H as (_ & _ & _ & Hc). exact Hc.
Defined.

(** ** Further runs on the small core *)



(** Changing the disc with no system. *)
Lemma operations_without_system_do_nothing_witness :
  needs_system (Op_changeDisc "game.cue") = true
  /\ snd (ext_system System_IsShutdown (env (host sys_0))) = true
  /\ trace_of (run_op ext_system (Op_changeDisc "game.cue") WorkerThread (host sys_0))
     = [EvCall System_IsShutdown].
Proof.
  assert (Hshut : snd (ext_system System_IsShutdown (env (host sys_0))) = true)
    by (vm_compute; reflexivity).
  split; [reflexivity|]. split; [exact Hshut|].
  pose proof (operations_without_system_do_nothing ext_system (Op_changeDisc "game.cue")
                (host sys_0) eq_refl Hshut) as H.
  cbv zeta in H. exact (proj1 (proj2 H)).
Defined.

(** Stopping the idle program. *)
Lemma stopThread_ends_worker_witness :
  crashed sys_0 = None
  /\ worker_pc sys_0 = InExec
  /\ worker_pc (run_system [TUI Op_stopThread; TWorker; TWorker] sys_0) = ThreadFinished.
Proof.
  assert (Hc : crashed sys_0 = None) by (vm_compute; reflexivity).
  assert (Hui : ui_wait (host sys_0) = UIRunning) by (vm_compute; reflexivity).
  assert (Hp : posted (host sys_0) = []) by (vm_compute; reflexivity).
  assert (Ht : s_settings_save_timer (host sys_0) = None) by (vm_compute; reflexivity).
  assert (Hpc : worker_pc sys_0 = InExec) by (vm_compute; reflexivity).
  split; [exact Hc|]. split; [exact Hpc|].
  pose proof (stopThread_ends_worker ext_system settings_version_0 default_settings_0 false
                sys_0 Hc Hui Hp Ht (or_introl Hpc)) as H.
  cbv zeta in H. destruct H as (_ & _ & Hfin & _). exact Hfin.
Defined.




